(** * Shop management backed by SQLite: a shallow embedding of
      [src/shop_management.py] and the properties of its order transaction.

    Modelling choices, all taken from the source:
    - a table with an [INTEGER PRIMARY KEY AUTOINCREMENT] column is a finite
      map from the row id to the remaining columns, together with the
      [sqlite_sequence] counter of the table; [order_items] has no key and is
      the list of its rows in insertion order;
    - integers are [Z]: the embedding covers the executions in which every
      integer stays inside SQLite's 64-bit range;
    - the values of a [REAL NOT NULL] column are an abstract type [real]; a
      Python [float] is one of them or not-a-number, which SQLite binds as
      NULL; the SQL product [quantity * price] and the aggregate [SUM] are
      operations on [real] that the definitions take as parameters, and that
      are instantiated with binary64 arithmetic for the concrete runs;
    - a [sqlite3.Connection] is the pair of the committed database and the
      working copy of the open transaction; the [with connection:] block
      commits when its body returns and rolls back when it raises;
    - character strings are byte strings: the embedding covers ASCII tokens. *)

From Stdlib Require Import ZArith String Ascii List Lia.
From Stdlib Require PrimFloat Uint63.
From stdpp Require Import base option list fin_maps gmap sorting.

Local Open Scope Z_scope.

(** ** Exceptions and results *)

(** The exceptions the program raises, with the data their messages carry. *)
Inductive exn : Type :=
| InvalidOrderLine (raw : string)
    (* ValueError(f"Invalid order line '{raw}', expected product_id:quantity") *)
| InvalidIntLiteral (s : string)
    (* ValueError of int(s): invalid literal for int() with base 10 *)
| IntDigitLimit (digits : nat)
    (* ValueError of int(s): exceeds the limit for integer string conversion *)
| NoOrderLines
    (* ValueError("At least one order line is required") *)
| ProductNotFound (product_id : Z)
    (* ValueError(f"Product {line.product_id} not found") *)
| InsufficientStock (product_id : Z) (available : Z)
    (* ValueError(f"Insufficient stock for product {id}: {stock} available") *)
| IntegrityError.
    (* sqlite3.IntegrityError: FOREIGN KEY constraint failed, or
       NOT NULL constraint failed *)

Inductive result (A : Type) : Type :=
| Ok (a : A)
| Raise (e : exn).
Arguments Ok {A} a.
Arguments Raise {A} e.

Definition is_Ok {A} (r : result A) : bool :=
  match r with Ok _ => true | Raise _ => false end.

(** ** Python's [int(str)] on ASCII text (CPython, [PyLong_FromString], base 10) *)

Definition Py_ISSPACE (c : ascii) : bool :=
  let n := Z.of_N (N_of_ascii c) in
  ((9 <=? n) && (n <=? 13)) || (n =? 32).

Definition digit_value (c : ascii) : option Z :=
  let n := Z.of_N (N_of_ascii c) in
  if (48 <=? n) && (n <=? 57) then Some (n - 48) else None.

Definition is_underscore (c : ascii) : bool := Ascii.eqb c "_"%char.

Fixpoint skip_spaces (s : string) : string :=
  match s with
  | String c s' => if Py_ISSPACE c then skip_spaces s' else s
  | EmptyString => s
  end.

(** The scanning loop over digits and single underscores: [prev] is the
    character read last, [acc] the value and [digits] the number of digits read
    so far. [None] is the loop's error exit (two underscores in a row, or one
    at the end); otherwise the value, the digit count and the text left. *)
Fixpoint scan_digits (s : string) (prev : ascii) (acc : Z) (digits : nat)
  : option (Z * nat * string) :=
  match s with
  | String c s' =>
      if is_underscore c then
        if is_underscore prev then None else scan_digits s' c acc digits
      else
        match digit_value c with
        | Some d => scan_digits s' c (10 * acc + d) (S digits)
        | None => if is_underscore prev then None else Some (acc, digits, s)
        end
  | EmptyString => if is_underscore prev then None else Some (acc, digits, s)
  end.

(** [_PY_LONG_MAX_STR_DIGITS_THRESHOLD]: below it the limit is never checked. *)
Definition MAX_STR_DIGITS_THRESHOLD : nat := 640.

(** [int(s)] for a text of ASCII characters; [max_str_digits] is
    [sys.get_int_max_str_digits()], 0 for no limit (and for the interpreters
    that predate the limit). The limit on the digits is tested once the
    digits are read, before the text that follows them. *)
Definition py_int (max_str_digits : nat) (s : string) : result Z :=
  let s1 := skip_spaces s in
  let '(sign, s2) :=
    match s1 with
    | String "+"%char r => (1, r)
    | String "-"%char r => (-1, r)
    | _ => (1, s1)
    end in
  match s2 with
  | String "_"%char _ => Raise (InvalidIntLiteral s)
  | _ =>
      match scan_digits s2 "000"%char 0 0%nat with
      | None => Raise (InvalidIntLiteral s)
      | Some (v, digits, rest) =>
          if (digits =? 0)%nat then Raise (InvalidIntLiteral s)
          else if (MAX_STR_DIGITS_THRESHOLD <? digits)%nat
                  && (0 <? max_str_digits)%nat
                  && (max_str_digits <? digits)%nat
          then Raise (IntDigitLimit digits)
          else
            match skip_spaces rest with
            | String _ _ => Raise (InvalidIntLiteral s)
            | EmptyString => Ok (sign * v)
            end
      end
  end.

(** [":" in raw] *)
Fixpoint contains_colon (raw : string) : bool :=
  match raw with
  | String c s' => Ascii.eqb c ":"%char || contains_colon s'
  | EmptyString => false
  end.

(** [raw.split(":", 1)] for a [raw] that contains a colon: the text before the
    first colon and the text after it. *)
Fixpoint split_colon_1 (raw : string) : string * string :=
  match raw with
  | String c s' =>
      if Ascii.eqb c ":"%char then (EmptyString, s')
      else let '(a, b) := split_colon_1 s' in (String c a, b)
  | EmptyString => (EmptyString, EmptyString)
  end.

(** ** Order lines and their command-line syntax *)

Record OrderLine : Type := { product_id : Z; quantity : Z }.

(** The loop of [_parse_order_lines]: every token in turn, the first bad token
    raises. *)
Fixpoint parse_tokens (max_str_digits : nat) (raw_lines : list string)
  : result (list OrderLine) :=
  match raw_lines with
  | [] => Ok []
  | raw :: rest =>
      if negb (contains_colon raw) then Raise (InvalidOrderLine raw)
      else
        let '(product_id_str, quantity_str) := split_colon_1 raw in
        match py_int max_str_digits product_id_str with
        | Raise e => Raise e
        | Ok p =>
            match py_int max_str_digits quantity_str with
            | Raise e => Raise e
            | Ok q =>
                match parse_tokens max_str_digits rest with
                | Raise e => Raise e
                | Ok parsed => Ok ({| product_id := p; quantity := q |} :: parsed)
                end
            end
        end
  end.

Definition _parse_order_lines (max_str_digits : nat) (raw_lines : list string)
  : result (list OrderLine) :=
  match parse_tokens max_str_digits raw_lines with
  | Raise e => Raise e
  | Ok [] => Raise NoOrderLines
  | Ok parsed => Ok parsed
  end.

(** The spec's token pattern [^\d+:\d+$], read on ASCII text: a non-empty run
    of decimal digits, one colon, a non-empty run of decimal digits. *)
Fixpoint all_digits (s : string) : bool :=
  match s with
  | String c s' => bool_decide (is_Some (digit_value c)) && all_digits s'
  | EmptyString => true
  end.

Definition digit_run (s : string) : bool :=
  match s with
  | String _ _ => all_digits s
  | EmptyString => false
  end.

Definition spec_line_pattern (raw : string) : bool :=
  contains_colon raw
  && digit_run (fst (split_colon_1 raw))
  && digit_run (snd (split_colon_1 raw)).

(** The number a run of decimal digits denotes. *)
Fixpoint decimal_value (s : string) (acc : Z) : Z :=
  match s with
  | String c s' => decimal_value s' (10 * acc + default 0 (digit_value c))
  | EmptyString => acc
  end.

(** The order line a token of that pattern denotes. *)
Definition line_of_token (raw : string) : OrderLine :=
  {| product_id := decimal_value (fst (split_colon_1 raw)) 0;
     quantity := decimal_value (snd (split_colon_1 raw)) 0 |}.

(** A run of digits that [int] converts under the limit [max_str_digits]. *)
Definition within_digit_limit (max_str_digits : nat) (s : string) : bool :=
  negb ((MAX_STR_DIGITS_THRESHOLD <? String.length s)%nat
        && (0 <? max_str_digits)%nat
        && (max_str_digits <? String.length s)%nat).

Definition token_within_digit_limit (max_str_digits : nat) (raw : string)
  : bool :=
  within_digit_limit max_str_digits (fst (split_colon_1 raw))
  && within_digit_limit max_str_digits (snd (split_colon_1 raw)).

(** What [_parse_order_lines] asks of a token to return [l] for it. *)
Definition token_parses (max_str_digits : nat) (raw : string) (l : OrderLine)
  : Prop :=
  contains_colon raw = true
  ∧ py_int max_str_digits (fst (split_colon_1 raw)) = Ok (product_id l)
  ∧ py_int max_str_digits (snd (split_colon_1 raw)) = Ok (quantity l).

(** The text is of ASCII characters: what [py_int] models [int] on. *)
Definition is_ascii (c : ascii) : bool := (N_of_ascii c <? 128)%N.

(** The characters [int] reads: spaces, a sign, digits and underscores. *)
Definition is_sign (c : ascii) : bool :=
  Ascii.eqb c "+"%char || Ascii.eqb c "-"%char.

Definition int_char (c : ascii) : bool :=
  Py_ISSPACE c || is_sign c || is_underscore c
  || bool_decide (is_Some (digit_value c)).

Fixpoint string_forallb (P : ascii → bool) (s : string) : bool :=
  match s with
  | String c s' => P c && string_forallb P s'
  | EmptyString => true
  end.

Definition ascii_text (s : string) : Prop := string_forallb is_ascii s = true.

(** ** The database *)

Section Model.

(** SQLite [REAL], Python [float]. *)
Context {real : Type}.

Record product_row : Type :=
  { product_name : string; product_price : real; product_stock : Z }.

Record customer_row : Type :=
  { customer_name : string; customer_email : string }.

Record order_row : Type :=
  { order_customer_id : Z; order_created_at : string }.

Record order_item : Type :=
  { item_order_id : Z; item_product_id : Z; item_quantity : Z; item_price : real }.

(** The four tables of [init_db], and the [sqlite_sequence] rows of the three
    [AUTOINCREMENT] tables (the largest row id ever given out). *)
Record database : Type :=
  { products : gmap Z product_row;
    customers : gmap Z customer_row;
    orders : gmap Z order_row;
    order_items : list order_item;
    seq_products : Z;
    seq_customers : Z;
    seq_orders : Z }.

Definition empty_database : database :=
  {| products := ∅; customers := ∅; orders := ∅; order_items := [];
     seq_products := 0; seq_customers := 0; seq_orders := 0 |}.

Definition max_rowid {A} (table : gmap Z A) : Z :=
  foldr Z.max 0 (fst <$> map_to_list table).

(** The row id [AUTOINCREMENT] gives to a new row. *)
Definition next_rowid {A} (table : gmap Z A) (seq : Z) : Z :=
  Z.max seq (max_rowid table) + 1.

(** ** SQL statements, as functions on the database a statement sees *)

(** A Python [float] given as a parameter of a statement: not-a-number,
    which SQLite binds as NULL, or a value the column holds. *)
Inductive py_float : Type :=
| PyNaN
| PyFloat (x : real).

(** INSERT INTO products (name, price, stock) VALUES (?, ?, ?): the column
    [price] is [REAL NOT NULL], so the statement fails on a not-a-number. *)
Definition sql_insert_product (name : string) (price : py_float) (stock : Z)
    (d : database) : result (Z * database) :=
  match price with
  | PyNaN => Raise IntegrityError
  | PyFloat x =>
      let id := next_rowid (products d) (seq_products d) in
      Ok (id,
          {| products :=
               <[id := {| product_name := name; product_price := x;
                          product_stock := stock |}]> (products d);
             customers := customers d; orders := orders d;
             order_items := order_items d;
             seq_products := id; seq_customers := seq_customers d;
             seq_orders := seq_orders d |})
  end.

Definition with_products (f : gmap Z product_row → gmap Z product_row)
    (d : database) : database :=
  {| products := f (products d);
     customers := customers d; orders := orders d;
     order_items := order_items d;
     seq_products := seq_products d; seq_customers := seq_customers d;
     seq_orders := seq_orders d |}.

Definition set_stock (stock : Z) (r : product_row) : product_row :=
  {| product_name := product_name r; product_price := product_price r;
     product_stock := stock |}.

(** UPDATE products SET stock = ? WHERE id = ? *)
Definition sql_update_stock (stock : Z) (id : Z) (d : database)
  : result (unit * database) :=
  Ok (tt, with_products (alter (set_stock stock) id) d).

(** UPDATE products SET stock = stock - ? WHERE id = ? *)
Definition sql_decrement_stock (qty : Z) (id : Z) (d : database)
  : result (unit * database) :=
  Ok (tt, with_products
            (alter (λ r, set_stock (product_stock r - qty) r) id) d).

Definition references_product (id : Z) (it : order_item) : bool :=
  bool_decide (item_product_id it = id).

(** DELETE FROM products WHERE id = ?, under [PRAGMA foreign_keys = ON]: the
    statement fails when it would strand an [order_items] row. *)
Definition sql_delete_product (id : Z) (d : database) : result (unit * database) :=
  match products d !! id with
  | None => Ok (tt, d)
  | Some _ =>
      if existsb (references_product id) (order_items d)
      then Raise IntegrityError
      else Ok (tt, with_products (delete id) d)
  end.

(** INSERT INTO customers (name, email) VALUES (?, ?) *)
Definition sql_insert_customer (name email : string) (d : database)
  : result (Z * database) :=
  let id := next_rowid (customers d) (seq_customers d) in
  Ok (id,
      {| products := products d;
         customers :=
           <[id := {| customer_name := name; customer_email := email |}]>
             (customers d);
         orders := orders d; order_items := order_items d;
         seq_products := seq_products d; seq_customers := id;
         seq_orders := seq_orders d |}).

(** INSERT INTO orders (customer_id, created_at) VALUES (?, ?), under
    [PRAGMA foreign_keys = ON]: the customer must exist. *)
Definition sql_insert_order (customer_id : Z) (created_at : string)
    (d : database) : result (Z * database) :=
  match customers d !! customer_id with
  | None => Raise IntegrityError
  | Some _ =>
      let id := next_rowid (orders d) (seq_orders d) in
      Ok (id,
          {| products := products d; customers := customers d;
             orders :=
               <[id := {| order_customer_id := customer_id;
                          order_created_at := created_at |}]> (orders d);
             order_items := order_items d;
             seq_products := seq_products d;
             seq_customers := seq_customers d; seq_orders := id |})
  end.

(** SELECT price, stock FROM products WHERE id = ?  (fetchone) *)
Definition sql_select_price_stock (id : Z) (d : database) : option (real * Z) :=
  (λ r, (product_price r, product_stock r)) <$> products d !! id.

(** INSERT INTO order_items (order_id, product_id, quantity, price)
    VALUES (?, ?, ?, ?), under [PRAGMA foreign_keys = ON]. *)
Definition sql_insert_order_item (order_id product_id qty : Z) (price : real)
    (d : database) : result (unit * database) :=
  match orders d !! order_id, products d !! product_id with
  | Some _, Some _ =>
      Ok (tt,
          {| products := products d; customers := customers d;
             orders := orders d;
             order_items :=
               order_items d ++
               [{| item_order_id := order_id; item_product_id := product_id;
                   item_quantity := qty; item_price := price |}];
             seq_products := seq_products d;
             seq_customers := seq_customers d; seq_orders := seq_orders d |})
  | _, _ => Raise IntegrityError
  end.

(** ** The reporting query of [list_orders] *)

Record order_summary : Type :=
  { summary_id : Z; summary_created_at : string;
    summary_customer_name : string; summary_total : real }.

(** [order_items.quantity * order_items.price] and [SUM(...)] over the rows of
    one group. *)
Variable sql_times : Z → real → real.
Variable sql_sum : list real → real.

Definition belongs_to (order_id : Z) (it : order_item) : bool :=
  bool_decide (item_order_id it = order_id).

(** The rows of [order_items] joined to one order, in table order. *)
Definition items_of (d : database) (order_id : Z) : list order_item :=
  List.filter (belongs_to order_id) (order_items d).

Definition line_amount (it : order_item) : real :=
  sql_times (item_quantity it) (item_price it).

(** One group of the query: the order joined with its customer and with its
    items; no group when either join finds no row. *)
Definition order_group (d : database) (entry : Z * order_row)
  : option order_summary :=
  match customers d !! order_customer_id entry.2 with
  | None => None
  | Some c =>
      match items_of d entry.1 with
      | [] => None
      | its =>
          Some {| summary_id := entry.1;
                  summary_created_at := order_created_at entry.2;
                  summary_customer_name := customer_name c;
                  summary_total := sql_sum (line_amount <$> its) |}
      end
  end.

(** ORDER BY orders.created_at DESC: [a] may stand before [b]. TEXT values
    compare byte by byte. *)
Definition created_desc (a b : order_summary) : Prop :=
  String.leb (summary_created_at b) (summary_created_at a) = true.

Global Instance created_desc_dec a b : Decision (created_desc a b).
Proof. unfold created_desc. apply _. Defined.

(** SELECT orders.id, orders.created_at, customers.name AS customer_name,
           SUM(order_items.quantity * order_items.price) AS total
    FROM orders JOIN customers ON customers.id = orders.customer_id
                JOIN order_items ON order_items.order_id = orders.id
    GROUP BY orders.id ORDER BY orders.created_at DESC *)
Definition sql_list_orders (d : database) : list order_summary :=
  merge_sort created_desc (omap (order_group d) (map_to_list (orders d))).

(** ** Connections and transactions *)

(** [disk] is the committed database; [txn] is the working copy of the open
    transaction, if one is open. *)
Record connection : Type := { disk : database; txn : option database }.

(** [connect]: a new connection, no transaction open. *)
Definition connect (d : database) : connection := {| disk := d; txn := None |}.

(** What a statement of this connection reads. *)
Definition visible (c : connection) : database :=
  match txn c with
  | Some w => w
  | None => disk c
  end.

Definition commit (c : connection) : connection :=
  {| disk := visible c; txn := None |}.

Definition rollback (c : connection) : connection :=
  {| disk := disk c; txn := None |}.

(** Code that runs on a connection and returns or raises. *)
Definition M (A : Type) : Type := connection → result A * connection.

Definition ret {A} (a : A) : M A := λ c, (Ok a, c).

Definition raise {A} (e : exn) : M A := λ c, (Raise e, c).

Definition bind {A B} (m : M A) (k : A → M B) : M B :=
  λ c, match m c with
       | (Ok a, c') => k a c'
       | (Raise e, c') => (Raise e, c')
       end.

(** [connection.execute] of a SELECT: reads, opens no transaction. *)
Definition execute_query {A} (q : database → A) : M A :=
  λ c, (Ok (q (visible c)), c).

(** [connection.execute] of an INSERT, UPDATE or DELETE: the module opens a
    transaction first if none is open; a failing statement changes nothing
    and leaves the transaction open. *)
Definition execute_dml {A} (stmt : database → result (A * database)) : M A :=
  λ c, match stmt (visible c) with
       | Ok (a, d') => (Ok a, {| disk := disk c; txn := Some d' |})
       | Raise e => (Raise e, {| disk := disk c; txn := Some (visible c) |})
       end.

(** [with connect(db_path) as connection: body]: commit when the body returns,
    roll back when it raises. The result is paired with the database left on
    disk. *)
Definition with_connection {A} (body : M A) (d : database)
  : result A * database :=
  match body (connect d) with
  | (Ok a, c) => (Ok a, disk (commit c))
  | (Raise e, c) => (Raise e, disk (rollback c))
  end.

(** [for x in xs: body] *)
Fixpoint for_each {A} (xs : list A) (body : A → M unit) : M unit :=
  match xs with
  | [] => ret tt
  | x :: xs' => bind (body x) (λ _, for_each xs' body)
  end.

(** ** The operations of the program *)

Definition add_product (name : string) (price : py_float) (stock : Z)
  : database → result Z * database :=
  with_connection (execute_dml (sql_insert_product name price stock)).

Definition update_product_stock (product_id stock : Z)
  : database → result unit * database :=
  with_connection (execute_dml (sql_update_stock stock product_id)).

Definition delete_product (product_id : Z)
  : database → result unit * database :=
  with_connection (execute_dml (sql_delete_product product_id)).

Definition add_customer (name email : string)
  : database → result Z * database :=
  with_connection (execute_dml (sql_insert_customer name email)).

(** The body of the loop of [create_order] for one line. *)
Definition order_line_step (order_id : Z) (line : OrderLine) : M unit :=
  bind (execute_query (sql_select_price_stock (product_id line))) (λ row,
    match row with
    | None => raise (ProductNotFound (product_id line))
    | Some (price, stock) =>
        if stock <? quantity line
        then raise (InsufficientStock (product_id line) stock)
        else
          bind (execute_dml
                  (sql_insert_order_item order_id (product_id line)
                     (quantity line) price))
               (λ _, execute_dml
                       (sql_decrement_stock (quantity line) (product_id line)))
    end).

(** The body of the [with] block of [create_order]. *)
Definition create_order_body (customer_id : Z) (timestamp : string)
    (lines : list OrderLine) : M Z :=
  bind (execute_dml (sql_insert_order customer_id timestamp)) (λ order_id,
    bind (for_each lines (order_line_step order_id)) (λ _, ret order_id)).

(** [create_order]; [timestamp] is the text of
    [datetime.now(tz=timezone.utc).isoformat()], read before the block. *)
Definition create_order (customer_id : Z) (timestamp : string)
    (lines : list OrderLine) : database → result Z * database :=
  with_connection (create_order_body customer_id timestamp lines).

Definition list_orders : database → result (list order_summary) * database :=
  with_connection (execute_query sql_list_orders).

(** The [create-order] branch of [main]: the tokens are parsed first, and
    [create_order] runs only on what the parser returns. *)
Definition main_create_order (max_str_digits : nat) (customer_id : Z)
    (timestamp : string) (raw_lines : list string) (d : database)
  : result Z * database :=
  match _parse_order_lines max_str_digits raw_lines with
  | Raise e => (Raise e, d)
  | Ok lines => create_order customer_id timestamp lines d
  end.

(** ** What the loop of [create_order] does to the working copy *)

(** One turn of the loop, read on the working copy [w] of the transaction: the
    two checks, then the two statements. *)
Definition apply_line (order_id : Z) (line : OrderLine) (w : database)
  : result database :=
  match sql_select_price_stock (product_id line) w with
  | None => Raise (ProductNotFound (product_id line))
  | Some (price, stock) =>
      if stock <? quantity line
      then Raise (InsufficientStock (product_id line) stock)
      else
        match sql_insert_order_item order_id (product_id line)
                (quantity line) price w with
        | Raise e => Raise e
        | Ok (_, w1) =>
            match sql_decrement_stock (quantity line) (product_id line) w1 with
            | Raise e => Raise e
            | Ok (_, w2) => Ok w2
            end
        end
  end.

Fixpoint apply_lines (order_id : Z) (lines : list OrderLine) (w : database)
  : result database :=
  match lines with
  | [] => Ok w
  | line :: rest =>
      match apply_line order_id line w with
      | Raise e => Raise e
      | Ok w' => apply_lines order_id rest w'
      end
  end.

(** A line fails on [w]: its product is not there, or it asks for more than
    the stock [w] holds. *)
Definition line_fails (line : OrderLine) (w : database) : Prop :=
  match products w !! product_id line with
  | None => True
  | Some row => product_stock row < quantity line
  end.

(** The quantity that [lines] ask of product [p] in total. *)
Definition ordered_quantity (p : Z) (lines : list OrderLine) : Z :=
  foldr (λ line acc, if bool_decide (product_id line = p)
                     then quantity line + acc else acc) 0 lines.

(** The row [create_order] stores for [line] in order [order_id], with the
    price the product has in [d]. *)
Definition captured (d : database) (order_id : Z) (line : OrderLine)
    (it : order_item) : Prop :=
  ∃ row, products d !! product_id line = Some row
         ∧ it = {| item_order_id := order_id;
                   item_product_id := product_id line;
                   item_quantity := quantity line;
                   item_price := product_price row |}.


(** Two databases with the same orders, customers and order items: they may
    differ in the products table. *)
Definition same_order_tables (d1 d2 : database) : Prop :=
  orders d1 = orders d2 ∧ customers d1 = customers d2
  ∧ order_items d1 = order_items d2.

(** ** The catalog queries *)

(** The dataclasses [Product] and [Customer]. *)
Record Product : Type :=
  { Product_id : Z; Product_name : string; Product_price : real;
    Product_stock : Z }.

Record Customer : Type :=
  { Customer_id : Z; Customer_name : string; Customer_email : string }.

(** A query without ORDER BY scans the table: the rows come by ascending row
    id. *)
Definition rowid_le {A} (x y : Z * A) : Prop := x.1 ≤ y.1.

Global Instance rowid_le_dec {A} (x y : Z * A) : Decision (rowid_le x y).
Proof. unfold rowid_le. apply _. Defined.

Definition table_scan {A} (table : gmap Z A) : list (Z * A) :=
  merge_sort rowid_le (map_to_list table).

(** The [Product] made of a row, columns to fields by name. *)
Definition Product_of_row (entry : Z * product_row) : Product :=
  {| Product_id := entry.1; Product_name := product_name entry.2;
     Product_price := product_price entry.2;
     Product_stock := product_stock entry.2 |}.

(** The [Customer] made of a row, columns to fields by name. *)
Definition Customer_of_row (entry : Z * customer_row) : Customer :=
  {| Customer_id := entry.1; Customer_name := customer_name entry.2;
     Customer_email := customer_email entry.2 |}.

(** SELECT id, name, price, stock FROM products  (fetchall) *)
Definition sql_select_products (d : database) : list (Z * product_row) :=
  table_scan (products d).

(** SELECT id, name, email FROM customers  (fetchall) *)
Definition sql_select_customers (d : database) : list (Z * customer_row) :=
  table_scan (customers d).

Definition list_products (d : database) : result (list Product) * database :=
  match with_connection (execute_query sql_select_products) d with
  | (Ok rows, d') => (Ok (Product_of_row <$> rows), d')
  | (Raise e, d') => (Raise e, d')
  end.

Definition list_customers (d : database) : result (list Customer) * database :=
  match with_connection (execute_query sql_select_customers) d with
  | (Ok rows, d') => (Ok (Customer_of_row <$> rows), d')
  | (Raise e, d') => (Raise e, d')
  end.

(** ** Quantities over the whole database *)


(** What the three FOREIGN KEY clauses of the schema ask: every order has its
    customer, every order item has its order and its product. *)
Definition fk_consistent (d : database) : Prop :=
  map_Forall (λ _ o, is_Some (customers d !! order_customer_id o)) (orders d)
  ∧ Forall (λ it, is_Some (orders d !! item_order_id it)
                  ∧ is_Some (products d !! item_product_id it))
      (order_items d).

End Model.

Arguments product_row : clear implicits.
Arguments order_item : clear implicits.
Arguments order_summary : clear implicits.
Arguments database : clear implicits.
Arguments connection : clear implicits.
Arguments py_float : clear implicits.
Arguments Product : clear implicits.

(** ** The creation text of an order *)

(** The fields of [datetime.now(tz=timezone.utc)]. *)
Record utc_datetime : Type :=
  { year : Z; month : Z; day : Z; hour : Z; minute : Z; second : Z;
    microsecond : Z }.

(** The ranges Python keeps the fields in. *)
Definition valid_datetime (t : utc_datetime) : Prop :=
  1 ≤ year t ≤ 9999 ∧ 1 ≤ month t ≤ 12 ∧ 1 ≤ day t ≤ 31
  ∧ 0 ≤ hour t ≤ 23 ∧ 0 ≤ minute t ≤ 59 ∧ 0 ≤ second t ≤ 59
  ∧ 0 ≤ microsecond t ≤ 999999.

Definition digit_char (d : Z) : ascii := ascii_of_N (Z.to_N (48 + d)).

(** [n] in [width] decimal digits, zeros in front ([%04d], [%02d], [%06d] on
    numbers that fit). *)
Fixpoint zero_padded (width : nat) (n : Z) : string :=
  match width with
  | O => EmptyString
  | S w =>
      String (digit_char (n / 10 ^ Z.of_nat w))
        (zero_padded w (n mod 10 ^ Z.of_nat w))
  end.

(** [t.isoformat()] for a datetime in UTC: the fraction is left out when the
    microsecond is 0. *)
Definition isoformat (t : utc_datetime) : string :=
  (zero_padded 4 (year t) ++ "-" ++ zero_padded 2 (month t) ++ "-"
   ++ zero_padded 2 (day t) ++ "T" ++ zero_padded 2 (hour t) ++ ":"
   ++ zero_padded 2 (minute t) ++ ":" ++ zero_padded 2 (second t)
   ++ (if (microsecond t =? 0)%Z then ""
       else "." ++ zero_padded 6 (microsecond t))
   ++ "+00:00")%string.

Definition then_compare (c : comparison) (rest : comparison) : comparison :=
  match c with Eq => rest | _ => c end.

(** Which of two datetimes is the earlier one. *)
Definition datetime_compare (a b : utc_datetime) : comparison :=
  then_compare (year a ?= year b)
    (then_compare (month a ?= month b)
       (then_compare (day a ?= day b)
          (then_compare (hour a ?= hour b)
             (then_compare (minute a ?= minute b)
                (then_compare (second a ?= second b)
                   (microsecond a ?= microsecond b)))))).

(** ** Binary64 arithmetic, for the concrete runs *)

Definition float_of_Z (z : Z) : PrimFloat.float :=
  if z <? 0 then PrimFloat.opp (PrimFloat.of_uint63 (Uint63.of_Z (- z)))
  else PrimFloat.of_uint63 (Uint63.of_Z z).

Definition float_times (q : Z) (p : PrimFloat.float) : PrimFloat.float :=
  PrimFloat.mul (float_of_Z q) p.

Definition float_sum (xs : list PrimFloat.float) : PrimFloat.float :=
  fold_left PrimFloat.add xs (float_of_Z 0).

(** A binary64 number as a parameter of a statement. *)
Definition py_float_of_float (x : PrimFloat.float) : py_float PrimFloat.float :=
  if PrimFloat.is_nan x then PyNaN else PyFloat x.

(** The interpreter's default for [sys.get_int_max_str_digits()]. *)
Definition default_max_str_digits : nat := 4300.

Definition product_A : product_row PrimFloat.float :=
  {| product_name := "A"; product_price := float_of_Z 10; product_stock := 5 |}.

Definition customer_Ann : customer_row :=
  {| customer_name := "Ann"; customer_email := "ann@example.org" |}.

(** A shop with one customer and product 1 priced 10.00 with stock 5, built
    with the program's own operations. *)
Definition shop_A : database PrimFloat.float :=
  (add_customer (customer_name customer_Ann) (customer_email customer_Ann)
     (add_product (product_name product_A)
        (PyFloat (product_price product_A))
        (product_stock product_A) empty_database).2).2.

Definition t0 : string := "2026-01-01T09:00:00+00:00"%string.
Definition t1 : string := "2026-01-01T09:00:01.500000+00:00"%string.
Definition t2 : string := "2026-01-02T08:30:00+00:00"%string.

Definition order_line (p q : Z) : OrderLine :=
  {| product_id := p; quantity := q |}.

(** [shop_A] after a first order of three units of product 1. *)
Definition shop_A_sold : database PrimFloat.float :=
  (create_order 1 t0 [order_line 1 3] shop_A).2.

(** [shop_A_sold] after two more orders of one unit each. *)
Definition shop_A_three_orders : database PrimFloat.float :=
  (create_order 1 t2 [order_line 1 1]
     (create_order 1 t1 [order_line 1 1] shop_A_sold).2).2.

(** * Properties *)

(** ** The creation text against the time it spells *)

Section CreationText.

Lemma digit_char_compare (a b : Z) :
  0 ≤ a ≤ 9 → 0 ≤ b ≤ 9 →
  Ascii.compare (digit_char a) (digit_char b) = (a ?= b).
Proof.
  intros Ha Hb. unfold Ascii.compare, digit_char.
  rewrite !N_ascii_embedding by lia. rewrite Z2N.inj_compare by lia.
  apply Z.add_compare_mono_l.
Qed.

Lemma compare_separator (c : ascii) (s t : string) :
  String.compare (String c EmptyString ++ s) (String c EmptyString ++ t)
  = String.compare s t.
Proof.
  change (String c EmptyString ++ s)%string with (String c s).
  change (String c EmptyString ++ t)%string with (String c t).
  cbn [String.compare]. unfold Ascii.compare. by rewrite N.compare_refl.
Qed.

Lemma compare_quotient_remainder (p q1 r1 q2 r2 : Z) :
  0 ≤ r1 < p → 0 ≤ r2 < p →
  (p * q1 + r1 ?= p * q2 + r2) = then_compare (q1 ?= q2) (r1 ?= r2).
Proof.
  intros H1 H2. unfold then_compare.
  destruct (Z.compare_spec q1 q2) as [->|Hlt|Hgt].
  - destruct (Z.compare_spec r1 r2);
      [apply Z.compare_eq_iff|apply Z.compare_lt_iff|apply Z.compare_gt_iff];
      lia.
  - apply Z.compare_lt_iff. nia.
  - apply Z.compare_gt_iff. nia.
Qed.

(** Numbers written in the same width compare as their texts do. *)
Lemma compare_zero_padded (w : nat) (n m : Z) (s t : string) :
  0 ≤ n < 10 ^ Z.of_nat w → 0 ≤ m < 10 ^ Z.of_nat w →
  String.compare (zero_padded w n ++ s) (zero_padded w m ++ t)
  = then_compare (n ?= m) (String.compare s t).
Proof.
  revert n m. induction w as [|w IH]; intros n m Hn Hm.
  - cbn in Hn, Hm. assert (n = 0) as -> by lia. assert (m = 0) as -> by lia.
    reflexivity.
  - rewrite Nat2Z.inj_succ, Z.pow_succ_r in Hn, Hm by lia.
    set (p := 10 ^ Z.of_nat w) in *.
    assert (0 < p) as Hp by (apply Z.pow_pos_nonneg; lia).
    pose proof (Z.div_mod n p ltac:(lia)) as En.
    pose proof (Z.div_mod m p ltac:(lia)) as Em.
    pose proof (Z.mod_pos_bound n p Hp) as Rn.
    pose proof (Z.mod_pos_bound m p Hp) as Rm.
    assert (0 ≤ n / p ≤ 9) as Qn.
    { split; [apply Z.div_pos; lia|].
      apply Z.lt_succ_r, Z.div_lt_upper_bound; lia. }
    assert (0 ≤ m / p ≤ 9) as Qm.
    { split; [apply Z.div_pos; lia|].
      apply Z.lt_succ_r, Z.div_lt_upper_bound; lia. }
    change (zero_padded (S w) n ++ s)%string with
      (String (digit_char (n / p)) (zero_padded w (n mod p) ++ s)).
    change (zero_padded (S w) m ++ t)%string with
      (String (digit_char (m / p)) (zero_padded w (m mod p) ++ t)).
    cbn [String.compare].
    rewrite digit_char_compare by assumption.
    rewrite En at 3. rewrite Em at 3.
    rewrite compare_quotient_remainder by assumption.
    destruct (n / p ?= m / p); cbn [then_compare]; [|reflexivity..].
    apply IH; assumption.
Qed.

Lemma compare_fraction (ua ub : Z) :
  0 ≤ ua ≤ 999999 → 0 ≤ ub ≤ 999999 →
  String.compare
    ((if (ua =? 0)%Z then "" else "." ++ zero_padded 6 ua) ++ "+00:00")%string
    ((if (ub =? 0)%Z then "" else "." ++ zero_padded 6 ub) ++ "+00:00")%string
  = (ua ?= ub).
Proof.
  intros Ha Hb.
  destruct (Z.eqb_spec ua 0) as [->|Hua]; destruct (Z.eqb_spec ub 0) as [->|Hub].
  - reflexivity.
  - transitivity Lt; [reflexivity|]. symmetry. apply Z.compare_lt_iff. lia.
  - transitivity Gt; [reflexivity|]. symmetry. apply Z.compare_gt_iff. lia.
  - change (("." ++ zero_padded 6 ua) ++ "+00:00")%string
      with ("." ++ (zero_padded 6 ua ++ "+00:00"))%string.
    change (("." ++ zero_padded 6 ub) ++ "+00:00")%string
      with ("." ++ (zero_padded 6 ub ++ "+00:00"))%string.
    rewrite compare_separator, compare_zero_padded by (cbn; lia).
    by destruct (ua ?= ub).
Qed.

(** The texts of two datetimes in UTC compare, byte by byte, as the datetimes
    do: ordering the orders by their creation text orders them by time. *)
Lemma isoformat_compare (a b : utc_datetime) :
  valid_datetime a → valid_datetime b →
  String.compare (isoformat a) (isoformat b) = datetime_compare a b.
Proof.
  intros (Hy & Hmo & Hd & Hh & Hmi & Hs & Hus)
         (Hy' & Hmo' & Hd' & Hh' & Hmi' & Hs' & Hus').
  unfold isoformat, datetime_compare.
  repeat (rewrite compare_zero_padded by (cbn; lia); f_equal;
          try rewrite compare_separator).
  by apply compare_fraction.
Qed.

Lemma isoformat_leb (a b : utc_datetime) :
  valid_datetime a → valid_datetime b →
  String.leb (isoformat a) (isoformat b) = true ↔ datetime_compare a b ≠ Gt.
Proof.
  intros Ha Hb. unfold String.leb. rewrite (isoformat_compare a b Ha Hb).
  by destruct (datetime_compare a b).
Qed.

End CreationText.

Section Theory.

Context {real : Type}.
Implicit Types (d w : database real) (c : connection real).
Implicit Types (line : OrderLine) (lines : list OrderLine).

(** ** Running the transaction: the monadic code against its effect on the
       working copy *)

Lemma order_line_step_run order_id line (dk w : database real) :
  order_line_step order_id line {| disk := dk; txn := Some w |} =
  match apply_line order_id line w with
  | Ok w' => (Ok tt, {| disk := dk; txn := Some w' |})
  | Raise e => (Raise e, {| disk := dk; txn := Some w |})
  end.
Proof.
  unfold order_line_step, apply_line, bind, execute_query, execute_dml, raise.
  cbn [visible txn disk].
  destruct (sql_select_price_stock (product_id line) w) as [[price stock]|];
    [|reflexivity].
  destruct (stock <? quantity line); [reflexivity|].
  cbn [visible txn disk].
  destruct (sql_insert_order_item _ _ _ _ w) as [[[] w1]|e]; [|reflexivity].
  cbn [visible txn disk]. reflexivity.
Qed.

Lemma for_each_run order_id lines (dk w : database real) :
  match apply_lines order_id lines w with
  | Ok w' =>
      for_each lines (order_line_step order_id) {| disk := dk; txn := Some w |}
      = (Ok tt, {| disk := dk; txn := Some w' |})
  | Raise e =>
      ∃ w', for_each lines (order_line_step order_id)
              {| disk := dk; txn := Some w |}
            = (Raise e, {| disk := dk; txn := Some w' |})
  end.
Proof.
  revert w. induction lines as [|line rest IH]; intros w; cbn [apply_lines for_each].
  - reflexivity.
  - unfold bind. rewrite order_line_step_run.
    destruct (apply_line order_id line w) as [w1|e].
    + exact (IH w1).
    + eauto.
Qed.

(** [create_order] as a function of the database: the order row goes in, the
    lines are applied to the working copy, and the outcome is committed or
    dropped as a whole. *)
Lemma create_order_run customer_id timestamp lines d :
  create_order customer_id timestamp lines d =
  match sql_insert_order customer_id timestamp d with
  | Raise e => (Raise e, d)
  | Ok (order_id, w0) =>
      match apply_lines order_id lines w0 with
      | Ok w => (Ok order_id, w)
      | Raise e => (Raise e, d)
      end
  end.
Proof.
  unfold create_order, with_connection, create_order_body, connect.
  unfold bind at 1. unfold execute_dml at 1. cbn [visible txn disk].
  destruct (sql_insert_order customer_id timestamp d) as [[order_id w0]|e];
    [|reflexivity].
  unfold bind at 1.
  pose proof (for_each_run order_id lines d w0) as Hrun.
  destruct (apply_lines order_id lines w0) as [w|e].
  - rewrite Hrun. reflexivity.
  - destruct Hrun as [w' ->]. reflexivity.
Qed.

(** Any failure of [create_order] leaves the database as it was. *)
Lemma create_order_failure_unchanged customer_id timestamp lines d r d' :
  create_order customer_id timestamp lines d = (r, d') →
  is_Ok r = false → d' = d.
Proof.
  rewrite create_order_run.
  destruct (sql_insert_order customer_id timestamp d) as [[order_id w0]|e].
  - destruct (apply_lines order_id lines w0) as [w|e];
      intros [= <- <-]; [discriminate|reflexivity].
  - intros [= <- <-]. reflexivity.
Qed.

(** ** One line on the working copy *)

Lemma set_stock_stock (r : product_row real) s : product_stock (set_stock s r) = s.
Proof. reflexivity. Qed.

Lemma set_stock_price (r : product_row real) s :
  product_price (set_stock s r) = product_price r.
Proof. reflexivity. Qed.

Lemma set_stock_same (r : product_row real) : set_stock (product_stock r) r = r.
Proof. destruct r. reflexivity. Qed.

(** What a line that passes its checks does. *)
Lemma apply_line_Ok order_id line w w' :
  apply_line order_id line w = Ok w' →
  ∃ row,
    products w !! product_id line = Some row
    ∧ quantity line ≤ product_stock row
    ∧ is_Some (orders w !! order_id)
    ∧ products w' =
        alter (λ r, set_stock (product_stock r - quantity line) r)
          (product_id line) (products w)
    ∧ order_items w' =
        order_items w ++
        [{| item_order_id := order_id; item_product_id := product_id line;
            item_quantity := quantity line; item_price := product_price row |}]
    ∧ customers w' = customers w ∧ orders w' = orders w
    ∧ seq_products w' = seq_products w ∧ seq_customers w' = seq_customers w
    ∧ seq_orders w' = seq_orders w.
Proof.
  unfold apply_line, sql_select_price_stock, sql_insert_order_item,
    sql_decrement_stock.
  destruct (products w !! product_id line) as [row|] eqn:Hrow;
    cbn [fmap option_fmap option_map]; [|discriminate].
  destruct (Z.ltb_spec (product_stock row) (quantity line)); [discriminate|].
  destruct (orders w !! order_id) as [o|] eqn:Ho; [|discriminate].
  intros [= <-]. exists row. cbn. eauto 12.
Qed.

(** When a line raises, and what. *)
Lemma apply_line_not_found order_id line w :
  products w !! product_id line = None →
  apply_line order_id line w = Raise (ProductNotFound (product_id line)).
Proof.
  intros Hnone. unfold apply_line, sql_select_price_stock. by rewrite Hnone.
Qed.

Lemma apply_line_insufficient order_id line w row :
  products w !! product_id line = Some row →
  product_stock row < quantity line →
  apply_line order_id line w
  = Raise (InsufficientStock (product_id line) (product_stock row)).
Proof.
  intros Hrow Hlt. unfold apply_line, sql_select_price_stock. rewrite Hrow.
  cbn [fmap option_fmap option_map].
  destruct (Z.ltb_spec (product_stock row) (quantity line)); [reflexivity|lia].
Qed.

Lemma apply_line_fails order_id line w :
  line_fails line w →
  ∃ e, apply_line order_id line w = Raise e
       ∧ (e = ProductNotFound (product_id line)
          ∨ ∃ available, e = InsufficientStock (product_id line) available
                         ∧ available < quantity line).
Proof.
  unfold line_fails.
  destruct (products w !! product_id line) as [row|] eqn:Hrow.
  - intros Hlt. rewrite (apply_line_insufficient _ _ _ _ Hrow Hlt). eauto 8.
  - intros _. rewrite (apply_line_not_found _ _ _ Hrow). eauto.
Qed.

(** A line within the stock goes through. *)
Lemma apply_line_passes order_id line w row :
  products w !! product_id line = Some row →
  quantity line ≤ product_stock row →
  is_Some (orders w !! order_id) →
  ∃ w', apply_line order_id line w = Ok w'.
Proof.
  intros Hrow Hle [o Ho].
  unfold apply_line, sql_select_price_stock, sql_insert_order_item,
    sql_decrement_stock.
  rewrite Hrow. cbn [fmap option_fmap option_map].
  destruct (Z.ltb_spec (product_stock row) (quantity line)); [lia|].
  rewrite Ho. eauto.
Qed.

Lemma apply_lines_app order_id pre post w :
  apply_lines order_id (pre ++ post) w =
  match apply_lines order_id pre w with
  | Ok w1 => apply_lines order_id post w1
  | Raise e => Raise e
  end.
Proof.
  revert w. induction pre as [|line pre IH]; intros w; cbn [apply_lines app].
  - reflexivity.
  - destruct (apply_line order_id line w); [apply IH|reflexivity].
Qed.

(** ** The whole loop on the working copy *)

Lemma ordered_quantity_cons p line lines :
  ordered_quantity p (line :: lines) =
  if bool_decide (product_id line = p)
  then quantity line + ordered_quantity p lines
  else ordered_quantity p lines.
Proof. reflexivity. Qed.

Lemma ordered_quantity_app p pre post :
  ordered_quantity p (pre ++ post) =
  ordered_quantity p pre + ordered_quantity p post.
Proof.
  induction pre as [|line pre IH]; [reflexivity|].
  rewrite <- app_comm_cons, !ordered_quantity_cons, IH.
  case_bool_decide; lia.
Qed.

(** The loop touches the products table only: of a product it changes the
    stock alone, lowering it by the quantity the lines ask of it. *)
Lemma apply_lines_products order_id lines w w' :
  apply_lines order_id lines w = Ok w' →
  ∀ p, products w' !! p =
       (λ r, set_stock (product_stock r - ordered_quantity p lines) r)
         <$> products w !! p.
Proof.
  revert w. induction lines as [|line rest IH]; intros w; cbn [apply_lines].
  - intros [= <-] p. cbn. destruct (products w !! p) as [r|]; cbn; [|done].
    by rewrite Z.sub_0_r, set_stock_same.
  - destruct (apply_line order_id line w) as [w1|e] eqn:Hline; [|discriminate].
    intros Hrest p. rewrite (IH _ Hrest p).
    apply apply_line_Ok in Hline as (row & Hrow & _ & _ & -> & _).
    rewrite ordered_quantity_cons, lookup_alter.
    case_decide as Hp; case_bool_decide; try congruence.
    subst p. rewrite Hrow. cbn. unfold set_stock. cbn. do 2 f_equal. lia.
Qed.

Lemma apply_lines_tables order_id lines w w' :
  apply_lines order_id lines w = Ok w' →
  customers w' = customers w ∧ orders w' = orders w
  ∧ seq_products w' = seq_products w ∧ seq_customers w' = seq_customers w
  ∧ seq_orders w' = seq_orders w.
Proof.
  revert w. induction lines as [|line rest IH]; intros w; cbn [apply_lines].
  - intros [= <-]. done.
  - destruct (apply_line order_id line w) as [w1|e] eqn:Hline; [|discriminate].
    intros Hrest. apply IH in Hrest as (-> & -> & -> & -> & ->).
    apply apply_line_Ok in Hline as (row & _ & _ & _ & _ & _ & H).
    exact H.
Qed.

(** The rows the loop appends to [order_items]: one per line, in the order of
    the lines, with the line's quantity and the product's price. *)
Lemma apply_lines_items order_id lines w w' :
  apply_lines order_id lines w = Ok w' →
  ∃ new_items,
    order_items w' = order_items w ++ new_items
    ∧ Forall2 (captured w order_id) lines new_items.
Proof.
  revert w. induction lines as [|line rest IH]; intros w; cbn [apply_lines].
  - intros [= <-]. exists []. rewrite app_nil_r. by split; [|constructor].
  - destruct (apply_line order_id line w) as [w1|e] eqn:Hline; [|discriminate].
    intros Hrest. destruct (IH _ Hrest) as (items & Hitems & Hcap).
    pose proof (apply_lines_products order_id [line] w w1) as Hprod.
    cbn [apply_lines] in Hprod. rewrite Hline in Hprod. specialize (Hprod eq_refl).
    apply apply_line_Ok in Hline as (row & Hrow & _ & _ & _ & Hit & _).
    eexists (_ :: items). split.
    + rewrite Hitems, Hit, <- app_assoc. reflexivity.
    + constructor; [by exists row|].
      eapply Forall2_impl; [exact Hcap|].
      intros l it (r1 & Hr1 & ->). rewrite Hprod in Hr1.
      destruct (products w !! product_id l) as [r0|] eqn:Hr0; [|discriminate].
      injection Hr1 as <-. by exists r0.
Qed.


(** ** Row ids *)

Lemma foldr_max_bound (l : list Z) (x : Z) : x ∈ l → x ≤ foldr Z.max 0 l.
Proof.
  induction l as [|y l IH]; [by intros ?%elem_of_nil|].
  intros [->|Hin]%elem_of_cons; cbn; [lia|].
  specialize (IH Hin). lia.
Qed.

Lemma max_rowid_bound {A} (table : gmap Z A) k v :
  table !! k = Some v → k ≤ max_rowid table.
Proof.
  intros Hk. apply foldr_max_bound.
  apply list_elem_of_fmap. exists (k, v). split; [reflexivity|].
  by apply elem_of_map_to_list.
Qed.

(** The id of a new row is not in the table. *)
Lemma next_rowid_fresh {A} (table : gmap Z A) seq :
  table !! next_rowid table seq = None.
Proof.
  destruct (table !! next_rowid table seq) as [v|] eqn:Hk; [|reflexivity].
  apply max_rowid_bound in Hk. unfold next_rowid in Hk. lia.
Qed.

(** The first statement of the transaction, for a customer that exists. *)
Lemma sql_insert_order_Ok customer_id timestamp d cust :
  customers d !! customer_id = Some cust →
  ∃ w0,
    sql_insert_order customer_id timestamp d
    = Ok (next_rowid (orders d) (seq_orders d), w0)
    ∧ products w0 = products d ∧ customers w0 = customers d
    ∧ orders w0 =
        <[next_rowid (orders d) (seq_orders d) :=
            {| order_customer_id := customer_id;
               order_created_at := timestamp |}]> (orders d)
    ∧ order_items w0 = order_items d.
Proof.
  intros Hc. unfold sql_insert_order. rewrite Hc. eexists. split; [reflexivity|].
  cbn. done.
Qed.

(** ** The order transaction *)

(** C1. [create_order] is all-or-nothing. The order row has been inserted and
    the lines [pre] have gone through, leaving the working copy [w]; the next
    line fails on [w] (its product is missing, or it asks for more than the
    stock [w] holds). Then the call raises that line's error and the database
    is the one the call started from: no order row, no order item and no stock
    change of this call is kept. *)
Theorem create_order_all_or_nothing
    d customer_id timestamp pre line post order_id w0 w :
  sql_insert_order customer_id timestamp d = Ok (order_id, w0) →
  apply_lines order_id pre w0 = Ok w →
  line_fails line w →
  ∃ e,
    create_order customer_id timestamp (pre ++ line :: post) d = (Raise e, d)
    ∧ (e = ProductNotFound (product_id line)
       ∨ ∃ available, e = InsufficientStock (product_id line) available
                      ∧ available < quantity line).
Proof.
  intros Hins Hpre Hfail.
  destruct (apply_line_fails order_id line w Hfail) as (e & Hline & He).
  exists e. split; [|exact He].
  rewrite create_order_run, Hins, apply_lines_app, Hpre.
  cbn [apply_lines]. by rewrite Hline.
Qed.

(** C2. Lines are taken in the caller's order and quantities are not added up
    beforehand: of two lines for the same product, the first within the stock
    and the two together above it, the second is the one that fails, and it is
    checked against the stock the first one left. *)
Theorem create_order_duplicate_product
    d customer_id timestamp p q1 q2 post cust row :
  customers d !! customer_id = Some cust →
  products d !! p = Some row →
  q1 ≤ product_stock row →
  product_stock row < q1 + q2 →
  create_order customer_id timestamp
    ({| product_id := p; quantity := q1 |}
       :: {| product_id := p; quantity := q2 |} :: post) d
  = (Raise (InsufficientStock p (product_stock row - q1)), d).
Proof.
  intros Hc Hrow H1 H2.
  destruct (sql_insert_order_Ok customer_id timestamp d cust Hc)
    as (w0 & Hins & Hp0 & _ & Ho0 & _).
  rewrite create_order_run, Hins. cbn [apply_lines].
  set (l1 := {| product_id := p; quantity := q1 |}).
  set (l2 := {| product_id := p; quantity := q2 |}).
  destruct (apply_line_passes (next_rowid (orders d) (seq_orders d)) l1 w0 row)
    as [w1 Hl1].
  { by rewrite Hp0. }
  { exact H1. }
  { rewrite Ho0, lookup_insert_eq. eauto. }
  rewrite Hl1.
  pose proof (apply_lines_products
                (next_rowid (orders d) (seq_orders d)) [l1] w0 w1) as Hp1.
  cbn [apply_lines] in Hp1. rewrite Hl1 in Hp1.
  specialize (Hp1 eq_refl p). rewrite Hp0, Hrow in Hp1.
  rewrite ordered_quantity_cons in Hp1. cbn in Hp1.
  rewrite bool_decide_eq_true_2 in Hp1 by reflexivity.
  rewrite (apply_line_insufficient _ l2 w1 _ Hp1); cbn; [|lia].
  do 3 f_equal. lia.
Qed.

(** C7. The foreign key from orders to customers is enforced: for a customer
    id that is not in the customers table, [create_order] raises the integrity
    error of the first statement and the database is unchanged. *)
Theorem create_order_unknown_customer d customer_id timestamp lines :
  customers d !! customer_id = None →
  create_order customer_id timestamp lines d = (Raise IntegrityError, d).
Proof.
  intros Hc. rewrite create_order_run. unfold sql_insert_order. by rewrite Hc.
Qed.

(** C3, as the code has it. The check for an empty order is in the parser of
    the command line: the [create-order] command with no line token raises
    before [create_order] runs, returns no id and leaves the database
    unchanged. [create_order] itself makes no such check: for a customer that
    exists and an empty sequence of lines it returns a new order id and stores
    the order row, with no order item and no other change. *)
Theorem create_order_empty_lines d max_str_digits customer_id timestamp :
  main_create_order max_str_digits customer_id timestamp [] d
  = (Raise NoOrderLines, d)
  ∧ (∀ cust, customers d !! customer_id = Some cust →
     ∃ d',
       create_order customer_id timestamp [] d
       = (Ok (next_rowid (orders d) (seq_orders d)), d')
       ∧ orders d !! next_rowid (orders d) (seq_orders d) = None
       ∧ orders d' =
           <[next_rowid (orders d) (seq_orders d) :=
               {| order_customer_id := customer_id;
                  order_created_at := timestamp |}]> (orders d)
       ∧ order_items d' = order_items d
       ∧ products d' = products d
       ∧ customers d' = customers d).
Proof.
  split; [reflexivity|].
  intros cust Hc.
  destruct (sql_insert_order_Ok customer_id timestamp d cust Hc)
    as (w0 & Hins & Hp0 & Hc0 & Ho0 & Hi0).
  exists w0. rewrite create_order_run, Hins. cbn [apply_lines].
  split; [reflexivity|]. split; [apply next_rowid_fresh|]. done.
Qed.

(** ** The catalog operations as functions of the database *)

Lemma add_product_nan name stock d :
  add_product name PyNaN stock d = (Raise IntegrityError, d).
Proof. reflexivity. Qed.

Lemma add_product_run name price stock d :
  add_product name (PyFloat price) stock d
  = (Ok (next_rowid (products d) (seq_products d)),
     {| products :=
          <[next_rowid (products d) (seq_products d) :=
              {| product_name := name; product_price := price;
                 product_stock := stock |}]> (products d);
        customers := customers d; orders := orders d;
        order_items := order_items d;
        seq_products := next_rowid (products d) (seq_products d);
        seq_customers := seq_customers d; seq_orders := seq_orders d |}).
Proof. reflexivity. Qed.

Lemma update_product_stock_run product_id stock d :
  update_product_stock product_id stock d
  = (Ok tt, with_products (alter (set_stock stock) product_id) d).
Proof. reflexivity. Qed.

Lemma delete_product_run product_id d :
  delete_product product_id d =
  match sql_delete_product product_id d with
  | Ok (_, d') => (Ok tt, d')
  | Raise e => (Raise e, d)
  end.
Proof.
  unfold delete_product, with_connection, execute_dml, connect.
  cbn [visible txn disk].
  by destruct (sql_delete_product product_id d) as [[[] d']|e].
Qed.

(** A deletion removes the product, or fails and changes nothing. *)
Lemma delete_product_cases product_id d :
  (delete_product product_id d).2 = d
  ∨ (delete_product product_id d).2 = with_products (delete product_id) d.
Proof.
  rewrite delete_product_run. unfold sql_delete_product.
  destruct (products d !! product_id); [|by left].
  destruct (existsb _ _); [by left|by right].
Qed.

Lemma with_products_id d : with_products (λ m, m) d = d.
Proof. by destruct d. Qed.

(** ** The stock invariant *)





(** ** The order of TEXT values *)

Lemma string_compare_trans (s1 s2 s3 : string) :
  String.compare s1 s2 ≠ Gt → String.compare s2 s3 ≠ Gt →
  String.compare s1 s3 ≠ Gt.
Proof.
  revert s2 s3. induction s1 as [|c1 s1 IH]; intros [|c2 s2] [|c3 s3];
    cbn; try congruence.
  unfold Ascii.compare.
  destruct (N.compare_spec (N_of_ascii c1) (N_of_ascii c2));
    destruct (N.compare_spec (N_of_ascii c2) (N_of_ascii c3));
    destruct (N.compare_spec (N_of_ascii c1) (N_of_ascii c3));
    try congruence; try lia; eauto.
Qed.

Lemma string_leb_trans (s1 s2 s3 : string) :
  String.leb s1 s2 = true → String.leb s2 s3 = true → String.leb s1 s3 = true.
Proof.
  unfold String.leb. intros H12 H23.
  pose proof (string_compare_trans s1 s2 s3) as H.
  destruct (String.compare s1 s2); try discriminate;
    destruct (String.compare s2 s3); try discriminate;
    destruct (String.compare s1 s3); try reflexivity;
    exfalso; apply H; congruence.
Qed.

Global Instance created_desc_trans : Transitive (@created_desc real).
Proof. intros a b c Hab Hbc. unfold created_desc in *. eauto using string_leb_trans. Qed.

Global Instance created_desc_total : Total (@created_desc real).
Proof.
  intros a b. unfold created_desc.
  destruct (String.leb_total (summary_created_at a) (summary_created_at b));
    auto.
Qed.

(** ** The report *)

Variable sql_times : Z → real → real.
Variable sql_sum : list real → real.

Abbreviation report := (sql_list_orders sql_times sql_sum).

Lemma list_orders_run d : list_orders sql_times sql_sum d = (Ok (report d), d).
Proof. reflexivity. Qed.

(** The groups of the query, before they are sorted. *)
Lemma order_group_Some d id o s :
  order_group sql_times sql_sum d (id, o) = Some s ↔
  ∃ cust,
    customers d !! order_customer_id o = Some cust
    ∧ items_of d id ≠ []
    ∧ s = {| summary_id := id;
             summary_created_at := order_created_at o;
             summary_customer_name := customer_name cust;
             summary_total :=
               sql_sum (line_amount sql_times <$> items_of d id) |}.
Proof.
  unfold order_group. cbn [fst snd].
  destruct (customers d !! order_customer_id o) as [cust|].
  - destruct (items_of d id) as [|it its] eqn:Hits.
    + split; [discriminate|]. by intros (? & _ & ? & _).
    + split.
      * intros [= <-]. exists cust. done.
      * intros (? & [= <-] & _ & ->). reflexivity.
  - split; [discriminate|]. by intros (? & ? & _).
Qed.

Lemma report_elem d s :
  s ∈ report d ↔
  ∃ o cust,
    orders d !! summary_id s = Some o
    ∧ customers d !! order_customer_id o = Some cust
    ∧ items_of d (summary_id s) ≠ []
    ∧ s = {| summary_id := summary_id s;
             summary_created_at := order_created_at o;
             summary_customer_name := customer_name cust;
             summary_total :=
               sql_sum (line_amount sql_times <$> items_of d (summary_id s)) |}.
Proof.
  unfold sql_list_orders. rewrite merge_sort_Permutation, list_elem_of_omap.
  split.
  - intros ([id o] & Hin & Hgrp). apply elem_of_map_to_list in Hin.
    apply order_group_Some in Hgrp as (cust & Hc & Hne & ->). cbn.
    exists o, cust. done.
  - intros (o & cust & Ho & Hc & Hne & Hs). exists (summary_id s, o). split.
    + by apply elem_of_map_to_list.
    + apply order_group_Some. exists cust. done.
Qed.

Lemma NoDup_omap_fst {A B} (f : Z * A → option B) (g : B → Z) (l : list (Z * A)) :
  (∀ x y, f x = Some y → g y = x.1) →
  NoDup (l.*1) → NoDup (g <$> omap f l).
Proof.
  intros Hfg. induction l as [|x l IH]; csimpl; [constructor|].
  intros [Hx Hl]%NoDup_cons. specialize (IH Hl).
  destruct (f x) as [y|] eqn:Hy; [|exact IH].
  csimpl. apply NoDup_cons. split; [|exact IH].
  intros (y' & Hg & Hin)%list_elem_of_fmap.
  apply list_elem_of_omap in Hin as (x' & Hx' & Hfx').
  apply Hx. apply list_elem_of_fmap. exists x'. split; [|exact Hx'].
  rewrite <- (Hfg _ _ Hy), <- (Hfg _ _ Hfx'). exact Hg.
Qed.

Lemma report_NoDup d : NoDup (summary_id <$> report d).
Proof.
  unfold sql_list_orders. rewrite merge_sort_Permutation.
  apply NoDup_omap_fst; [|apply NoDup_fst_map_to_list].
  intros [id o] s Hgrp. by apply order_group_Some in Hgrp as (? & _ & _ & ->).
Qed.

Lemma report_sorted d : StronglySorted created_desc (report d).
Proof. apply StronglySorted_merge_sort; apply _. Qed.

Lemma StronglySorted_lookup_lt {A} (R : relation A) (l : list A) i j x y :
  StronglySorted R l → l !! i = Some x → l !! j = Some y → (i < j)%nat →
  R x y.
Proof.
  intros Hl. revert i j. induction Hl as [|z l Hl IH Hz]; intros i j Hi Hj Hij.
  - by rewrite lookup_nil in Hi.
  - destruct j as [|j]; [lia|]. destruct i as [|i].
    + injection Hi as ->. cbn in Hj.
      rewrite Forall_forall in Hz. apply Hz.
      by eapply list_elem_of_lookup_2.
    + cbn in Hi, Hj. apply (IH i j); [done|done|lia].
Qed.

(** Of two rows of the report whose creation texts were written by
    [create_order], the one that stands first is not the earlier one. *)
Lemma report_most_recent_first d i j s1 s2 a b :
  report d !! i = Some s1 → report d !! j = Some s2 → (i < j)%nat →
  summary_created_at s1 = isoformat a → valid_datetime a →
  summary_created_at s2 = isoformat b → valid_datetime b →
  datetime_compare b a ≠ Gt.
Proof.
  intros Hi Hj Hij Ha Va Hb Vb.
  pose proof (StronglySorted_lookup_lt _ _ _ _ _ _ (report_sorted d) Hi Hj Hij)
    as Hdesc.
  unfold created_desc in Hdesc. rewrite Ha, Hb in Hdesc.
  by apply isoformat_leb in Hdesc.
Qed.

(** The query reads the orders, customers and order items only. *)
Lemma report_same_order_tables (d1 d2 : database real) :
  same_order_tables d1 d2 → report d1 = report d2.
Proof.
  intros (Ho & Hc & Hi). unfold sql_list_orders. rewrite Ho. f_equal.
  apply list_omap_ext, Forall2_same_length_lookup. split; [reflexivity|].
  intros i x y Hx Hy. assert (x = y) as -> by congruence.
  unfold order_group, items_of. by rewrite Hc, Hi.
Qed.

Lemma with_products_same_order_tables f d :
  same_order_tables d (with_products f d).
Proof. done. Qed.

(** The catalog operations on products leave the three tables of the report
    alone. *)
Lemma product_operations_same_order_tables d :
  (∀ name price stock, same_order_tables d (add_product name price stock d).2)
  ∧ (∀ product_id stock,
       same_order_tables d (update_product_stock product_id stock d).2)
  ∧ (∀ product_id, same_order_tables d (delete_product product_id d).2).
Proof.
  split; [|split].
  - by intros name [|price] stock.
  - done.
  - intros id. by destruct (delete_product_cases id d) as [->| ->].
Qed.

(** What a successful [create_order] appends to [order_items]. *)
Lemma create_order_items customer_id timestamp lines d order_id d' :
  create_order customer_id timestamp lines d = (Ok order_id, d') →
  ∃ new_items,
    order_items d' = order_items d ++ new_items
    ∧ Forall2 (captured d order_id) lines new_items.
Proof.
  rewrite create_order_run. unfold sql_insert_order.
  destruct (customers d !! customer_id); [|discriminate].
  match goal with |- context [apply_lines ?o lines ?w] =>
    destruct (apply_lines o lines w) as [w'|e] eqn:Hrun end; [|discriminate].
  intros [= <- <-]. exact (apply_lines_items _ _ _ _ Hrun).
Qed.

(** C5. A successful [create_order] appends one row per line, in the order of
    the lines, and each row holds the price its product has in the database
    the call runs on: the call changes no price, so this is the price read at
    the stock check. The report reads the orders, customers and order items
    only: whatever is done to the products table afterwards (prices, stocks,
    insertions, deletions, and the program's own [add_product],
    [update_product_stock] and [delete_product]), [list_orders] returns the
    same rows, with the same totals. *)
Theorem captured_price_is_kept customer_id timestamp lines d order_id d' :
  create_order customer_id timestamp lines d = (Ok order_id, d') →
  (∃ new_items,
     order_items d' = order_items d ++ new_items
     ∧ Forall2 (captured d order_id) lines new_items)
  ∧ (∀ d2, same_order_tables d' d2 →
       (list_orders sql_times sql_sum d2).1
       = (list_orders sql_times sql_sum d').1)
  ∧ (∀ f, same_order_tables d' (with_products f d'))
  ∧ (∀ name price stock, same_order_tables d' (add_product name price stock d').2)
  ∧ (∀ product_id stock,
       same_order_tables d' (update_product_stock product_id stock d').2)
  ∧ (∀ product_id, same_order_tables d' (delete_product product_id d').2).
Proof.
  intros Hrun. split; [exact (create_order_items _ _ _ _ _ _ Hrun)|].
  split.
  { intros d2 Hsame. rewrite !list_orders_run. cbn [fst]. f_equal.
    symmetry. by apply report_same_order_tables. }
  split; [intros f; apply with_products_same_order_tables|].
  apply product_operations_same_order_tables.
Qed.

(** C6, as the code has it. [list_orders] writes nothing. It returns exactly
    one row for each order whose customer row exists and that has at least one
    order item (an order without items has no row): the row carries the
    order's id and creation text, the name of its customer, and as total the
    sum over the order's items of quantity times stored price. The rows are
    sorted by creation text, greatest first; for the texts [create_order]
    writes, the ISO texts of datetimes in UTC, that is most recent first. *)
Theorem list_orders_report d :
  ∃ rows,
    list_orders sql_times sql_sum d = (Ok rows, d)
    ∧ (∀ s, s ∈ rows ↔
         ∃ o cust,
           orders d !! summary_id s = Some o
           ∧ customers d !! order_customer_id o = Some cust
           ∧ items_of d (summary_id s) ≠ []
           ∧ s = {| summary_id := summary_id s;
                    summary_created_at := order_created_at o;
                    summary_customer_name := customer_name cust;
                    summary_total :=
                      sql_sum (line_amount sql_times
                                 <$> items_of d (summary_id s)) |})
    ∧ NoDup (summary_id <$> rows)
    ∧ StronglySorted created_desc rows
    ∧ (∀ i j s1 s2 a b,
         rows !! i = Some s1 → rows !! j = Some s2 → (i < j)%nat →
         summary_created_at s1 = isoformat a → valid_datetime a →
         summary_created_at s2 = isoformat b → valid_datetime b →
         datetime_compare b a ≠ Gt).
Proof.
  exists (report d). split; [apply list_orders_run|].
  split; [apply report_elem|].
  split; [apply report_NoDup|].
  split; [apply report_sorted|apply report_most_recent_first].
Qed.

(** C10. An order row that no row of [order_items] refers to is not in what
    [list_orders] returns: the join drops it, it is not reported with a zero
    total. *)
Theorem list_orders_omits_empty_order d order_id o :
  orders d !! order_id = Some o →
  items_of d order_id = [] →
  ∃ rows,
    list_orders sql_times sql_sum d = (Ok rows, d)
    ∧ order_id ∉ summary_id <$> rows.
Proof.
  intros _ Hempty. exists (report d). split; [apply list_orders_run|].
  intros (s & -> & Hin)%list_elem_of_fmap.
  apply report_elem in Hin as (? & ? & _ & _ & Hne & _). by apply Hne.
Qed.


(** The command line reaches [create_order] with what the parser returned. *)
Lemma main_create_order_Ok max_str_digits customer_id timestamp raw_lines d
    order_id d' :
  main_create_order max_str_digits customer_id timestamp raw_lines d
  = (Ok order_id, d') →
  ∃ lines,
    _parse_order_lines max_str_digits raw_lines = Ok lines
    ∧ create_order customer_id timestamp lines d = (Ok order_id, d').
Proof.
  unfold main_create_order.
  destruct (_parse_order_lines max_str_digits raw_lines) as [lines|e];
    [eauto|discriminate].
Qed.

End Theory.

(** ** The parser of order lines *)

Section Parsing.

Variable max_str_digits : nat.

Lemma digit_not_underscore c : is_Some (digit_value c) → is_underscore c = false.
Proof.
  unfold is_underscore. destruct (Ascii.eqb_spec c "_"%char) as [->|]; [|done].
  intros [d Hd]. discriminate Hd.
Qed.

(** The scanning loop on a run of digits reads it all. *)
Lemma scan_digits_all_digits s prev acc n :
  all_digits s = true →
  is_underscore prev = false →
  scan_digits s prev acc n
  = Some (decimal_value s acc, (n + String.length s)%nat, EmptyString).
Proof.
  revert prev acc n. induction s as [|c s IH]; intros prev acc n Hall Hprev.
  - cbn. rewrite Hprev. by rewrite Nat.add_0_r.
  - cbn in Hall. apply andb_prop in Hall as [Hc Hs].
    apply bool_decide_eq_true_1 in Hc.
    pose proof (digit_not_underscore c Hc) as Hu.
    destruct Hc as [dv Hdv]. cbn [scan_digits decimal_value]. rewrite Hu, Hdv.
    cbn [default from_option]. rewrite (IH c _ _ Hs Hu). cbn [String.length].
    do 3 f_equal. lia.
Qed.

(** [int] on text that starts with a digit: no space to skip, no sign. *)
Lemma py_int_starts_with_digit c s :
  is_Some (digit_value c) →
  py_int max_str_digits (String c s) =
  match scan_digits (String c s) "000"%char 0 0%nat with
  | None => Raise (InvalidIntLiteral (String c s))
  | Some (v, digits, rest) =>
      if (digits =? 0)%nat then Raise (InvalidIntLiteral (String c s))
      else if (MAX_STR_DIGITS_THRESHOLD <? digits)%nat
              && (0 <? max_str_digits)%nat
              && (max_str_digits <? digits)%nat
      then Raise (IntDigitLimit digits)
      else
        match skip_spaces rest with
        | String _ _ => Raise (InvalidIntLiteral (String c s))
        | EmptyString => Ok (1 * v)
        end
  end.
Proof.
  intros [dv Hdv].
  destruct c as [[] [] [] [] [] [] [] []]; try discriminate Hdv; reflexivity.
Qed.

Lemma py_int_digit_run s :
  digit_run s = true →
  within_digit_limit max_str_digits s = true →
  py_int max_str_digits s = Ok (decimal_value s 0).
Proof.
  destruct s as [|c s]; [discriminate|]. intros Hall Hlim.
  cbn [digit_run] in Hall.
  assert (is_Some (digit_value c)) as Hc.
  { cbn in Hall. apply andb_prop in Hall as [Hc _].
    by apply bool_decide_eq_true_1 in Hc. }
  rewrite (py_int_starts_with_digit c s Hc).
  rewrite (scan_digits_all_digits _ "000"%char _ _ Hall eq_refl).
  cbn [Nat.add String.length Nat.eqb].
  unfold within_digit_limit in Hlim. cbn [String.length] in Hlim.
  apply negb_true_iff in Hlim. rewrite Hlim. cbn [skip_spaces].
  by rewrite Z.mul_1_l.
Qed.

(** [int] on a minus sign and a run of digits. *)
Lemma py_int_minus_starts_with_digit c s :
  is_Some (digit_value c) →
  py_int max_str_digits (String "-"%char (String c s))
  = match py_int max_str_digits (String c s) with
    | Ok v => Ok (- v)
    | Raise (InvalidIntLiteral _) =>
        Raise (InvalidIntLiteral (String "-"%char (String c s)))
    | Raise e => Raise e
    end.
Proof.
  intros Hc. pose proof Hc as [dv Hdv]. rewrite (py_int_starts_with_digit c s Hc).
  transitivity
    (match scan_digits (String c s) "000"%char 0 0%nat with
     | None => Raise (InvalidIntLiteral (String "-"%char (String c s)))
     | Some (v, digits, rest) =>
         if (digits =? 0)%nat
         then Raise (InvalidIntLiteral (String "-"%char (String c s)))
         else if (MAX_STR_DIGITS_THRESHOLD <? digits)%nat
                 && (0 <? max_str_digits)%nat
                 && (max_str_digits <? digits)%nat
         then Raise (IntDigitLimit digits)
         else
           match skip_spaces rest with
           | String _ _ =>
               Raise (InvalidIntLiteral (String "-"%char (String c s)))
           | EmptyString => Ok (-1 * v)
           end
     end).
  { destruct c as [[] [] [] [] [] [] [] []]; try discriminate Hdv; reflexivity. }
  destruct (scan_digits (String c s) "000"%char 0 0%nat) as [[[v digits] rest]|];
    [|reflexivity].
  destruct (digits =? 0)%nat; [reflexivity|].
  destruct (_ && _ && _); [reflexivity|].
  destruct (skip_spaces rest); [|reflexivity]. f_equal. lia.
Qed.

Lemma py_int_minus_digit_run s :
  digit_run s = true →
  within_digit_limit max_str_digits s = true →
  py_int max_str_digits (String "-"%char s) = Ok (- decimal_value s 0).
Proof.
  intros Hrun Hlim. destruct s as [|c s]; [discriminate|].
  assert (is_Some (digit_value c)) as Hc.
  { cbn in Hrun. apply andb_prop in Hrun as [Hc _].
    by apply bool_decide_eq_true_1 in Hc. }
  rewrite (py_int_minus_starts_with_digit c s Hc).
  by rewrite (py_int_digit_run _ Hrun Hlim).
Qed.

Lemma digit_not_colon c : is_Some (digit_value c) → Ascii.eqb c ":"%char = false.
Proof.
  destruct (Ascii.eqb_spec c ":"%char) as [->|]; [|done].
  intros [d Hd]. discriminate Hd.
Qed.

(** Splitting a token made of a run of digits, a colon and more text. *)
Lemma split_colon_1_digits a rest :
  all_digits a = true →
  contains_colon (a ++ String ":"%char rest)%string = true
  ∧ split_colon_1 (a ++ String ":"%char rest)%string = (a, rest).
Proof.
  induction a as [|c a IH]; intros Hall.
  - done.
  - cbn in Hall. apply andb_prop in Hall as [Hc Ha].
    apply bool_decide_eq_true_1, digit_not_colon in Hc.
    destruct (IH Ha) as [IH1 IH2].
    change (String c a ++ String ":"%char rest)%string
      with (String c (a ++ String ":"%char rest)%string).
    cbn [contains_colon split_colon_1]. rewrite Hc, IH1, IH2. done.
Qed.

(** A signed quantity after a run of digits parses, to the negative number. *)
Lemma signed_token_parses a b :
  digit_run a = true → digit_run b = true →
  within_digit_limit max_str_digits a = true →
  within_digit_limit max_str_digits b = true →
  token_parses max_str_digits
    (a ++ String ":"%char (String "-"%char b))%string
    {| product_id := decimal_value a 0; quantity := - decimal_value b 0 |}.
Proof.
  intros Ha Hb La Lb. unfold token_parses.
  assert (all_digits a = true) as Hall by (by destruct a).
  destruct (split_colon_1_digits a (String "-"%char b) Hall) as [-> ->].
  cbn [fst snd product_id quantity].
  split; [reflexivity|].
  split; [by apply py_int_digit_run|by apply py_int_minus_digit_run].
Qed.

(** The loop of the parser returns a line for each token, or raises. *)
Lemma parse_tokens_Ok raw_lines parsed :
  parse_tokens max_str_digits raw_lines = Ok parsed ↔
  Forall2 (token_parses max_str_digits) raw_lines parsed.
Proof.
  revert parsed. induction raw_lines as [|raw rest IH]; intros parsed.
  - cbn. split.
    + intros [= <-]. constructor.
    + intros ->%Forall2_nil_inv_l. reflexivity.
  - cbn [parse_tokens].
    destruct (contains_colon raw) eqn:Hcolon; cbn [negb].
    2:{ split; [discriminate|].
        intros (? & ? & (? & _) & _)%Forall2_cons_inv_l. congruence. }
    destruct (split_colon_1 raw) as [a b] eqn:Hsplit.
    destruct (py_int max_str_digits a) as [p|e] eqn:Ha.
    2:{ split; [discriminate|].
        intros (? & ? & (_ & Hpa & _) & _)%Forall2_cons_inv_l.
        rewrite Hsplit in Hpa. cbn [fst] in Hpa. congruence. }
    destruct (py_int max_str_digits b) as [q|e] eqn:Hb.
    2:{ split; [discriminate|].
        intros (? & ? & (_ & _ & Hpb) & _)%Forall2_cons_inv_l.
        rewrite Hsplit in Hpb. cbn [snd] in Hpb. congruence. }
    destruct (parse_tokens max_str_digits rest) as [ls|e].
    + split.
      * intros [= <-]. constructor; [|by apply IH].
        unfold token_parses. rewrite Hsplit. done.
      * intros ([p' q'] & ls' & (_ & Hpa & Hpb) & Hrest & ->)%Forall2_cons_inv_l.
        rewrite Hsplit in Hpa, Hpb. cbn [fst snd product_id quantity] in *.
        apply IH in Hrest as [= <-]. congruence.
    + split; [discriminate|].
      intros (? & ls' & _ & Hrest & _)%Forall2_cons_inv_l.
      by apply IH in Hrest.
Qed.

Lemma _parse_order_lines_Ok raw_lines parsed :
  _parse_order_lines max_str_digits raw_lines = Ok parsed ↔
  raw_lines ≠ [] ∧ Forall2 (token_parses max_str_digits) raw_lines parsed.
Proof.
  unfold _parse_order_lines. rewrite <- parse_tokens_Ok.
  destruct (parse_tokens max_str_digits raw_lines) as [[|l ls]|e] eqn:Hp.
  - split; [discriminate|]. intros [Hne _].
    apply parse_tokens_Ok, Forall2_nil_inv_r in Hp. contradiction.
  - split; [|by intros [_ ?]]. intros [= <-]. split; [|reflexivity].
    intros ->. discriminate Hp.
  - split; [discriminate|]. by intros [_ ?].
Qed.

(** A token of the spec's pattern parses, to the numbers it spells. *)
Lemma pattern_token_parses raw :
  spec_line_pattern raw = true →
  token_within_digit_limit max_str_digits raw = true →
  token_parses max_str_digits raw (line_of_token raw).
Proof.
  unfold spec_line_pattern, token_within_digit_limit, token_parses.
  intros [[Hcolon Ha]%andb_prop Hb]%andb_prop [La Lb]%andb_prop.
  split; [exact Hcolon|]. split; by apply py_int_digit_run.
Qed.

Context {real : Type}.

(** C8, as the code has it, for tokens of ASCII characters. The parser raises
    on an empty list of tokens, and
    whenever it raises the [create-order] command ends there, before
    [create_order] runs, with the database unchanged. It accepts a list of
    tokens exactly when the list is not empty and each token has a colon,
    with text before and text after the first colon that [int] converts.
    Every token of the pattern [^\d+:\d+$] (with runs of digits within the
    interpreter's limit for [int]) is such a token, and parses to the two
    numbers it spells; these are not the only ones, since [int] also takes a
    sign, spaces around the number and single underscores between digits: a
    run of digits, a colon, a minus sign and a run of digits parses to a
    negative quantity. *)
Theorem parse_order_lines_accepts raw_lines :
  Forall ascii_text raw_lines →
  _parse_order_lines max_str_digits [] = Raise NoOrderLines
  ∧ (∀ parsed,
       _parse_order_lines max_str_digits raw_lines = Ok parsed ↔
       raw_lines ≠ []
       ∧ Forall2 (token_parses max_str_digits) raw_lines parsed)
  ∧ (raw_lines ≠ [] →
     Forall (λ raw, spec_line_pattern raw = true
                    ∧ token_within_digit_limit max_str_digits raw = true)
       raw_lines →
     _parse_order_lines max_str_digits raw_lines
     = Ok (line_of_token <$> raw_lines))
  ∧ (∀ a b,
       digit_run a = true → digit_run b = true →
       within_digit_limit max_str_digits a = true →
       within_digit_limit max_str_digits b = true →
       _parse_order_lines max_str_digits
         [(a ++ String ":"%char (String "-"%char b))%string]
       = Ok [{| product_id := decimal_value a 0;
                quantity := - decimal_value b 0 |}])
  ∧ (∀ (d : database real) customer_id timestamp e,
       _parse_order_lines max_str_digits raw_lines = Raise e →
       main_create_order max_str_digits customer_id timestamp raw_lines d
       = (Raise e, d)).
Proof.
  intros _.
  split; [reflexivity|]. split; [apply _parse_order_lines_Ok|]. split.
  - intros Hne Hall. apply _parse_order_lines_Ok. split; [exact Hne|].
    apply Forall2_fmap_r, Forall_Forall2_diag.
    eapply Forall_impl; [exact Hall|].
    intros raw [Hpat Hlim]. by apply pattern_token_parses.
  - split.
    + intros a b Ha Hb La Lb. apply _parse_order_lines_Ok.
      split; [discriminate|].
      constructor; [by apply signed_token_parses|constructor].
    + intros d customer_id timestamp e Hparse. unfold main_create_order.
      by rewrite Hparse.
Qed.

End Parsing.

(** * The catalog and the order transaction as a whole *)

Section Catalog.

Context {real : Type}.
Implicit Types (d : database real).

(** ** Table scans *)

Global Instance rowid_le_trans {A} : Transitive (@rowid_le A).
Proof. intros x y z. unfold rowid_le. lia. Qed.

Global Instance rowid_le_total {A} : Total (@rowid_le A).
Proof. intros x y. unfold rowid_le. lia. Qed.

Lemma table_scan_elem {A} (table : gmap Z A) k v :
  (k, v) ∈ table_scan table ↔ table !! k = Some v.
Proof.
  unfold table_scan. rewrite merge_sort_Permutation. apply elem_of_map_to_list.
Qed.

Lemma table_scan_sorted {A} (table : gmap Z A) :
  StronglySorted rowid_le (table_scan table).
Proof. apply StronglySorted_merge_sort; apply _. Qed.

Lemma table_scan_NoDup {A} (table : gmap Z A) : NoDup (table_scan table).*1.
Proof.
  unfold table_scan. rewrite merge_sort_Permutation.
  apply NoDup_fst_map_to_list.
Qed.

Lemma sorted_NoDup_ascending {A} (l : list (Z * A)) :
  StronglySorted rowid_le l → NoDup l.*1 →
  StronglySorted (λ x y, x.1 < y.1) l.
Proof.
  induction 1 as [|x l Hl IH Hx]; [constructor|].
  rewrite fmap_cons. intros [Hnotin Hnd]%NoDup_cons.
  constructor; [by apply IH|].
  rewrite Forall_forall in Hx |- *. intros y Hy.
  specialize (Hx y Hy). unfold rowid_le in Hx.
  assert (x.1 ≠ y.1); [|lia].
  intros Heq. apply Hnotin. rewrite Heq. apply list_elem_of_fmap. eauto.
Qed.

Lemma table_scan_ascending {A} (table : gmap Z A) :
  StronglySorted (λ x y, x.1 < y.1) (table_scan table).
Proof.
  apply sorted_NoDup_ascending; [apply table_scan_sorted|apply table_scan_NoDup].
Qed.



(** ** Listing *)

Lemma list_products_run d :
  list_products d = (Ok (Product_of_row <$> table_scan (products d)), d).
Proof. reflexivity. Qed.

Lemma list_customers_run d :
  list_customers d = (Ok (Customer_of_row <$> table_scan (customers d)), d).
Proof. reflexivity. Qed.

Lemma ascending_fmap {A B} (f : Z * A → B) (g : B → Z) (l : list (Z * A)) :
  (∀ x, g (f x) = x.1) →
  StronglySorted (λ x y, x.1 < y.1) l →
  StronglySorted (λ a b, g a < g b) (f <$> l).
Proof.
  intros Hg. induction 1 as [|x l Hl IH Hx]; [constructor|].
  rewrite fmap_cons. constructor; [exact IH|].
  rewrite Forall_fmap. eapply Forall_impl; [exact Hx|].
  intros y Hy. cbn. by rewrite !Hg.
Qed.

(** X1. [list_products] writes nothing and returns the products table as it
    is: a product is in the list exactly when the table has a row with its
    id, name, price and stock, and the list is by strictly ascending id, so
    no product is listed twice. *)
Theorem list_products_lists_the_table d :
  ∃ ps,
    list_products d = (Ok ps, d)
    ∧ (∀ p, p ∈ ps ↔
         products d !! Product_id p
         = Some {| product_name := Product_name p;
                   product_price := Product_price p;
                   product_stock := Product_stock p |})
    ∧ StronglySorted (λ a b, Product_id a < Product_id b) ps.
Proof.
  exists (Product_of_row <$> table_scan (products d)).
  split; [apply list_products_run|]. split.
  - intros p. rewrite list_elem_of_fmap. split.
    + intros ([k [n pr st]] & -> & Hin). by apply table_scan_elem in Hin.
    + intros Hp. eexists (Product_id p, _). split; [|by apply table_scan_elem].
      by destruct p.
  - apply (ascending_fmap Product_of_row Product_id); [done|].
    apply table_scan_ascending.
Qed.

(** X2. [list_customers] writes nothing and returns the customers table as it
    is, by strictly ascending id. *)
Theorem list_customers_lists_the_table d :
  ∃ cs,
    list_customers d = (Ok cs, d)
    ∧ (∀ c, c ∈ cs ↔
         customers d !! Customer_id c
         = Some {| customer_name := Customer_name c;
                   customer_email := Customer_email c |})
    ∧ StronglySorted (λ a b, Customer_id a < Customer_id b) cs.
Proof.
  exists (Customer_of_row <$> table_scan (customers d)).
  split; [apply list_customers_run|]. split.
  - intros c. rewrite list_elem_of_fmap. split.
    + intros ([k [n e]] & -> & Hin). by apply table_scan_elem in Hin.
    + intros Hc. eexists (Customer_id c, _). split; [|by apply table_scan_elem].
      by destruct c.
  - apply (ascending_fmap Customer_of_row Customer_id); [done|].
    apply table_scan_ascending.
Qed.

(** ** Insertions *)


Lemma add_customer_run name email d :
  add_customer name email d
  = (Ok (next_rowid (customers d) (seq_customers d)),
     {| products := products d;
        customers :=
          <[next_rowid (customers d) (seq_customers d) :=
              {| customer_name := name; customer_email := email |}]>
            (customers d);
        orders := orders d; order_items := order_items d;
        seq_products := seq_products d;
        seq_customers := next_rowid (customers d) (seq_customers d);
        seq_orders := seq_orders d |}).
Proof. reflexivity. Qed.


(** ** Stock corrections and deletions *)

Lemma alter_set_stock_twice (m : gmap Z (product_row real)) id s1 s2 :
  alter (set_stock s2) id (alter (set_stock s1) id m)
  = alter (set_stock s2) id m.
Proof.
  apply map_eq. intros k. rewrite !lookup_alter.
  repeat case_decide; try congruence. by destruct (m !! id).
Qed.

(** X5. [update_product_stock] never raises and overwrites: a product that is
    there gets the stock given and keeps its name and price; every other
    product and the three other tables are as before; for an id that is not
    there nothing changes; of two calls for one id the later one decides. *)
Theorem update_product_stock_overwrites product_id stock d :
  ∃ d',
    update_product_stock product_id stock d = (Ok tt, d')
    ∧ products d' !! product_id = set_stock stock <$> products d !! product_id
    ∧ (∀ k, k ≠ product_id → products d' !! k = products d !! k)
    ∧ same_order_tables d d'
    ∧ (products d !! product_id = None → d' = d)
    ∧ (∀ stock2,
         update_product_stock product_id stock2 d'
         = update_product_stock product_id stock2 d).
Proof.
  eexists. split; [apply update_product_stock_run|].
  cbn [with_products products].
  split; [by rewrite lookup_alter, decide_True|].
  split; [by intros k Hk; rewrite lookup_alter, decide_False|].
  split; [done|]. split.
  - intros Hnone. rewrite <- (with_products_id d) at 2.
    unfold with_products. f_equal. by apply alter_id'.
  - intros stock2. rewrite !update_product_stock_run.
    unfold with_products. cbn [products customers orders order_items
      seq_products seq_customers seq_orders].
    by rewrite alter_set_stock_twice.
Qed.

Lemma existsb_references id (items : list (order_item real)) :
  existsb (references_product id) items = true
  ↔ Exists (λ it, item_product_id it = id) items.
Proof.
  induction items as [|it items IH]; cbn [existsb].
  - split; [discriminate|]. by intros ?%Exists_nil.
  - rewrite orb_true_iff, Exists_cons, IH. unfold references_product.
    by rewrite bool_decide_eq_true.
Qed.

(** X6. [delete_product] has three outcomes. For an id that is not in the
    table it returns and changes nothing. For a product that a row of
    [order_items] refers to it raises the integrity error and changes nothing.
    For any other product it removes the row and nothing else: every other
    product, the three other tables and the counter of product ids are as
    before. *)
Theorem delete_product_outcomes product_id d :
  (products d !! product_id = None → delete_product product_id d = (Ok tt, d))
  ∧ (is_Some (products d !! product_id) →
     Exists (λ it, item_product_id it = product_id) (order_items d) →
     delete_product product_id d = (Raise IntegrityError, d))
  ∧ (is_Some (products d !! product_id) →
     Forall (λ it, item_product_id it ≠ product_id) (order_items d) →
     ∃ d',
       delete_product product_id d = (Ok tt, d')
       ∧ products d' !! product_id = None
       ∧ (∀ k, k ≠ product_id → products d' !! k = products d !! k)
       ∧ same_order_tables d d'
       ∧ seq_products d' = seq_products d).
Proof.
  rewrite delete_product_run. unfold sql_delete_product.
  split; [by intros ->|]. split.
  - intros [row ->] Hex. apply existsb_references in Hex. by rewrite Hex.
  - intros [row ->] Hall.
    destruct (existsb (references_product product_id) (order_items d)) eqn:Hex.
    { apply existsb_references, Exists_exists in Hex as (it & Hin & Hit).
      rewrite Forall_forall in Hall. by destruct (Hall it Hin). }
    eexists. split; [reflexivity|]. cbn [with_products products seq_products].
    split; [apply lookup_delete_eq|].
    split; [by intros k Hk; apply lookup_delete_ne|]. done.
Qed.

(** ** Referential integrity *)

Lemma fk_consistent_products_grow d d' :
  orders d' = orders d → customers d' = customers d →
  order_items d' = order_items d →
  (∀ k, is_Some (products d !! k) → is_Some (products d' !! k)) →
  fk_consistent d → fk_consistent d'.
Proof.
  intros Ho Hc Hi Hp [Hord Hitems]. unfold fk_consistent.
  rewrite Ho, Hc, Hi. split; [exact Hord|].
  eapply Forall_impl; [exact Hitems|]. intros it [? ?]. auto.
Qed.


(** ** A successful order, table by table *)

Lemma create_order_Ok_inv customer_id timestamp lines d order_id d' :
  create_order customer_id timestamp lines d = (Ok order_id, d') →
  ∃ cust new_items,
    customers d !! customer_id = Some cust
    ∧ order_id = next_rowid (orders d) (seq_orders d)
    ∧ orders d' =
        <[order_id := {| order_customer_id := customer_id;
                         order_created_at := timestamp |}]> (orders d)
    ∧ customers d' = customers d
    ∧ (∀ p, products d' !! p =
            (λ r, set_stock (product_stock r - ordered_quantity p lines) r)
              <$> products d !! p)
    ∧ order_items d' = order_items d ++ new_items
    ∧ Forall2 (captured d order_id) lines new_items.
Proof.
  intros Hrun.
  destruct (create_order_items _ _ _ _ _ _ Hrun) as (items & Hitems & Hcap).
  revert Hrun. rewrite create_order_run. unfold sql_insert_order.
  destruct (customers d !! customer_id) as [cust|] eqn:Hc; [|discriminate].
  match goal with |- context [apply_lines ?o lines ?w] =>
    destruct (apply_lines o lines w) as [w'|e] eqn:Hrun end; [|discriminate].
  intros [= <- <-]. exists cust, items.
  pose proof (apply_lines_products _ _ _ _ Hrun) as Hp.
  apply apply_lines_tables in Hrun as (Hc' & Ho' & _).
  rewrite Hc', Ho'. cbn in *. done.
Qed.


Lemma fk_consistent_empty : fk_consistent (@empty_database real).
Proof. split; [apply map_Forall_empty|constructor]. Qed.

Lemma add_product_fk_consistent name price stock d :
  fk_consistent d → fk_consistent (add_product name price stock d).2.
Proof.
  destruct price as [|price]; [by rewrite add_product_nan|].
  rewrite add_product_run. apply fk_consistent_products_grow; try done.
  intros k Hk. cbn [products]. apply lookup_insert_is_Some'. by right.
Qed.

Lemma update_product_stock_fk_consistent product_id stock d :
  fk_consistent d → fk_consistent (update_product_stock product_id stock d).2.
Proof.
  rewrite update_product_stock_run. apply fk_consistent_products_grow; try done.
  intros k Hk. cbn [with_products products]. by apply lookup_alter_is_Some.
Qed.

Lemma delete_product_fk_consistent product_id d :
  fk_consistent d → fk_consistent (delete_product product_id d).2.
Proof.
  intros Hd. rewrite delete_product_run. unfold sql_delete_product.
  destruct (products d !! product_id) as [row|]; [|exact Hd].
  destruct (existsb (references_product product_id) (order_items d)) eqn:Hex;
    [exact Hd|].
  destruct Hd as [Hord Hitems]. split; [exact Hord|].
  cbn [snd with_products orders order_items products].
  rewrite Forall_forall in Hitems |- *. intros it Hin.
  destruct (Hitems it Hin) as [Ho Hp]. split; [exact Ho|].
  rewrite lookup_delete_ne; [exact Hp|].
  intros Heq. apply not_true_iff_false in Hex. apply Hex.
  apply existsb_references, Exists_exists. eauto.
Qed.

Lemma add_customer_fk_consistent name email d :
  fk_consistent d → fk_consistent (add_customer name email d).2.
Proof.
  rewrite add_customer_run. intros [Hord Hitems]. split; [|exact Hitems].
  cbn [snd orders customers]. intros k o Ho.
  apply lookup_insert_is_Some'. right. by apply (Hord k o).
Qed.

Lemma captured_items_refer d order_id lines (items : list (order_item real)) :
  Forall2 (captured d order_id) lines items →
  Forall (λ it, item_order_id it = order_id
                ∧ is_Some (products d !! item_product_id it)) items.
Proof.
  induction 1 as [|l it ls its (row & Hrow & ->) _ IH].
  - constructor.
  - constructor; [|exact IH]. cbn. split; [reflexivity|by eexists].
Qed.

Lemma create_order_fk_consistent customer_id timestamp lines d :
  fk_consistent d → fk_consistent (create_order customer_id timestamp lines d).2.
Proof.
  intros Hd.
  destruct (create_order customer_id timestamp lines d) as [[order_id|e] d']
    eqn:Hrun.
  2:{ by rewrite (create_order_failure_unchanged _ _ _ _ _ _ Hrun eq_refl). }
  cbn [snd].
  apply create_order_Ok_inv in Hrun
    as (cust & items & Hc & _ & Ho & Hc' & Hp & Hi & Hcap).
  destruct Hd as [Hord Hitems]. split.
  - rewrite Ho, Hc'. apply map_Forall_insert_2; [|exact Hord].
    cbn [order_customer_id]. by rewrite Hc.
  - rewrite Hi, Ho. apply Forall_app. split.
    + eapply Forall_impl; [exact Hitems|]. intros it [Hio [row Hrow]]. split.
      * apply lookup_insert_is_Some'. by right.
      * rewrite Hp, Hrow. by eexists.
    + eapply Forall_impl; [exact (captured_items_refer _ _ _ _ Hcap)|].
      intros it [-> [row Hrow]]. split.
      * rewrite lookup_insert_eq. by eexists.
      * rewrite Hp, Hrow. by eexists.
Qed.

(** X7. Referential integrity is an invariant. In a database where every
    order has its customer and every order item has its order and its
    product, that is still so after [add_product], [update_product_stock],
    [delete_product], [add_customer] and [create_order], whether they return
    or raise. *)
Theorem foreign_keys_are_kept d :
  fk_consistent d →
  (∀ name price stock, fk_consistent (add_product name price stock d).2)
  ∧ (∀ product_id stock,
       fk_consistent (update_product_stock product_id stock d).2)
  ∧ (∀ product_id, fk_consistent (delete_product product_id d).2)
  ∧ (∀ name email, fk_consistent (add_customer name email d).2)
  ∧ (∀ customer_id timestamp lines,
       fk_consistent (create_order customer_id timestamp lines d).2).
Proof.
  intros Hd. split; [|split; [|split; [|split]]]; intros.
  - by apply add_product_fk_consistent.
  - by apply update_product_stock_fk_consistent.
  - by apply delete_product_fk_consistent.
  - by apply add_customer_fk_consistent.
  - by apply create_order_fk_consistent.
Qed.


(** ** When an order goes through, and what it changes *)








(** X13. On tokens of the pattern [^\d+:\d+$] the [create-order] command is
    [create_order] on the lines the tokens spell, in the order of the tokens. *)
Theorem main_create_order_on_pattern_tokens
    max_str_digits customer_id timestamp raw_lines d :
  raw_lines ≠ [] →
  Forall (λ raw, spec_line_pattern raw = true
                 ∧ token_within_digit_limit max_str_digits raw = true)
    raw_lines →
  main_create_order max_str_digits customer_id timestamp raw_lines d
  = create_order customer_id timestamp (line_of_token <$> raw_lines) d.
Proof.
  intros Hne Hall. unfold main_create_order.
  assert (_parse_order_lines max_str_digits raw_lines
          = Ok (line_of_token <$> raw_lines)) as ->; [|reflexivity].
  apply _parse_order_lines_Ok. split; [exact Hne|].
  apply Forall2_fmap_r, Forall_Forall2_diag.
  eapply Forall_impl; [exact Hall|].
  intros raw [Hpat Hlim]. by apply pattern_token_parses.
Qed.

(** ** The report after an order *)

Variable sql_times : Z → real → real.
Variable sql_sum : list real → real.

Lemma filter_belongs_all order_id (items : list (order_item real)) :
  Forall (λ it, item_order_id it = order_id) items →
  List.filter (belongs_to order_id) items = items.
Proof.
  induction 1 as [|it items Hit _ IH]; [reflexivity|].
  cbn [List.filter]. unfold belongs_to at 1.
  rewrite bool_decide_eq_true_2 by done. by rewrite IH.
Qed.

Lemma filter_belongs_none order_id (items : list (order_item real)) :
  Forall (λ it, item_order_id it ≠ order_id) items →
  List.filter (belongs_to order_id) items = [].
Proof.
  induction 1 as [|it items Hit _ IH]; [reflexivity|].
  cbn [List.filter]. unfold belongs_to at 1.
  by rewrite bool_decide_eq_false_2.
Qed.

(** X14. The report after a successful order with at least one line, on a
    database that keeps its foreign keys: it has the rows it had, unchanged,
    and one more row, for the new order, with the name of the customer and as
    total the sum over the lines of quantity times the price the product has
    in the database. *)
Theorem create_order_adds_one_report_row
    customer_id timestamp lines d order_id d' :
  fk_consistent d →
  lines ≠ [] →
  create_order customer_id timestamp lines d = (Ok order_id, d') →
  ∃ cust new_items,
    customers d !! customer_id = Some cust
    ∧ Forall2 (captured d order_id) lines new_items
    ∧ ∀ s,
        s ∈ sql_list_orders sql_times sql_sum d' ↔
        s ∈ sql_list_orders sql_times sql_sum d
        ∨ s = {| summary_id := order_id;
                 summary_created_at := timestamp;
                 summary_customer_name := customer_name cust;
                 summary_total :=
                   sql_sum (line_amount sql_times <$> new_items) |}.
Proof.
  intros [_ Hfk] Hne Hrun.
  apply create_order_Ok_inv in Hrun
    as (cust & items & Hc & Hid & Ho & Hc' & _ & Hi & Hcap).
  exists cust, items. split; [exact Hc|]. split; [exact Hcap|].
  assert (orders d !! order_id = None) as Hfresh.
  { rewrite Hid. apply next_rowid_fresh. }
  assert (Forall (λ it, item_order_id it = order_id) items) as Hnew.
  { eapply Forall_impl; [exact (captured_items_refer _ _ _ _ Hcap)|].
    by intros it [? _]. }
  assert (items_of d' order_id = items) as Hitems_new.
  { unfold items_of. rewrite Hi, List.filter_app, (filter_belongs_all _ _ Hnew).
    rewrite filter_belongs_none; [reflexivity|].
    eapply Forall_impl; [exact Hfk|]. intros it [[o Hio] _] Heq. congruence. }
  assert (∀ k, k ≠ order_id → items_of d' k = items_of d k) as Hitems_old.
  { intros k Hk. unfold items_of.
    rewrite Hi, List.filter_app, (filter_belongs_none k items), app_nil_r;
      [reflexivity|].
    eapply Forall_impl; [exact Hnew|]. intros it ->. congruence. }
  assert (items ≠ []) as Hitems_ne.
  { intros ->. apply Forall2_nil_inv_r in Hcap. contradiction. }
  intros s. rewrite !report_elem. split.
  - intros (o & c & Hso & Hsc & Hsi & Hs).
    destruct (decide (summary_id s = order_id)) as [Heq|Hneq].
    + right. rewrite Heq in *. rewrite Ho, lookup_insert_eq in Hso.
      injection Hso as <-. cbn [order_customer_id order_created_at] in *.
      rewrite Hc', Hc in Hsc. injection Hsc as <-.
      rewrite Hitems_new in Hs. exact Hs.
    + left. exists o, c. rewrite Ho, lookup_insert_ne in Hso by congruence.
      rewrite Hc' in Hsc. rewrite (Hitems_old _ Hneq) in Hsi, Hs. done.
  - intros [(o & c & Hso & Hsc & Hsi & Hs)| ->].
    + assert (summary_id s ≠ order_id) as Hneq by congruence.
      exists o, c. rewrite Ho, lookup_insert_ne by congruence.
      rewrite Hc', (Hitems_old _ Hneq). done.
    + cbn [summary_id]. eexists _, cust.
      rewrite Ho, lookup_insert_eq, Hc', Hitems_new.
      split; [reflexivity|]. done.
Qed.

End Catalog.

(** * What the parser lets through *)

Section Alphabet.

Variable max_str_digits : nat.

Lemma skip_spaces_forallb (P : ascii → bool) s :
  (∀ c, Py_ISSPACE c = true → P c = true) →
  string_forallb P (skip_spaces s) = true → string_forallb P s = true.
Proof.
  intros Hsp. induction s as [|c s IH]; [done|].
  cbn [skip_spaces]. destruct (Py_ISSPACE c) eqn:Hc; [|done].
  intros Hrest. cbn [string_forallb]. by rewrite (Hsp c Hc), IH.
Qed.

Lemma scan_digits_forallb (P : ascii → bool) s prev acc n v k rest :
  (∀ c, is_underscore c = true → P c = true) →
  (∀ c, is_Some (digit_value c) → P c = true) →
  scan_digits s prev acc n = Some (v, k, rest) →
  string_forallb P rest = true → string_forallb P s = true.
Proof.
  intros Hu Hd. revert prev acc n.
  induction s as [|c s IH]; intros prev acc n; cbn [scan_digits].
  - destruct (is_underscore prev); [discriminate|]. by intros [= _ _ <-].
  - destruct (is_underscore c) eqn:Hc.
    + destruct (is_underscore prev); [discriminate|].
      intros Hscan Hrest. cbn [string_forallb].
      by rewrite (Hu c Hc), (IH _ _ _ Hscan Hrest).
    + destruct (digit_value c) as [dv|] eqn:Hdv.
      * intros Hscan Hrest. cbn [string_forallb].
        rewrite (Hd c) by (by rewrite Hdv).
        by rewrite (IH _ _ _ Hscan Hrest).
      * destruct (is_underscore prev); [discriminate|]. by intros [= _ _ <-].
Qed.

(** The text after the optional sign. *)
Lemma sign_prefix_cases (s1 : string) :
  (match s1 with
   | String "+"%char r => (1, r)
   | String "-"%char r => (-1, r)
   | _ => (1, s1)
   end).2 = s1
  ∨ ∃ c, is_sign c = true
         ∧ s1 = String c (match s1 with
                          | String "+"%char r => (1, r)
                          | String "-"%char r => (-1, r)
                          | _ => (1, s1)
                          end).2.
Proof.
  destruct s1 as [|c r]; [by left|].
  destruct c as [[] [] [] [] [] [] [] []];
    first [by left | right; eexists; split; [|reflexivity]; reflexivity].
Qed.

Lemma underscore_guard {A} (s2 : string) (x y : A) :
  match s2 with
  | String "_"%char _ => x
  | _ => y
  end = x
  ∨ match s2 with
    | String "_"%char _ => x
    | _ => y
    end = y.
Proof.
  destruct s2 as [|c r]; [by right|].
  destruct c as [[] [] [] [] [] [] [] []]; first [by left | by right].
Qed.

(** [int] converts no text with a character other than a space, a sign, a
    digit or an underscore. *)
Lemma py_int_Ok_chars s v :
  py_int max_str_digits s = Ok v → string_forallb int_char s = true.
Proof.
  unfold py_int. intros Hint.
  apply (skip_spaces_forallb int_char);
    [by intros c Hc; unfold int_char; rewrite Hc|].
  pose proof (sign_prefix_cases (skip_spaces s)) as Hsign.
  destruct (match skip_spaces s with
            | String "+"%char r => (1, r)
            | String "-"%char r => (-1, r)
            | _ => (1, skip_spaces s)
            end) as [sign s2].
  cbn [snd] in Hsign.
  assert (string_forallb int_char s2 = true) as Hs2.
  { destruct (underscore_guard s2
                (Raise (InvalidIntLiteral s) : result Z)
                (match scan_digits s2 "000"%char 0 0%nat with
                 | None => Raise (InvalidIntLiteral s)
                 | Some (v0, digits, rest) =>
                     if (digits =? 0)%nat then Raise (InvalidIntLiteral s)
                     else if (MAX_STR_DIGITS_THRESHOLD <? digits)%nat
                             && (0 <? max_str_digits)%nat
                             && (max_str_digits <? digits)%nat
                     then Raise (IntDigitLimit digits)
                     else
                       match skip_spaces rest with
                       | String _ _ => Raise (InvalidIntLiteral s)
                       | EmptyString => Ok (sign * v0)
                       end
                 end)) as [Hg|Hg];
      rewrite Hg in Hint; [discriminate|].
    destruct (scan_digits s2 "000"%char 0 0%nat) as [[[v0 digits] rest]|]
      eqn:Hscan; [|discriminate].
    destruct (digits =? 0)%nat; [discriminate|].
    destruct (_ && _ && _); [discriminate|].
    destruct (skip_spaces rest) eqn:Hrest; [|discriminate].
    apply (scan_digits_forallb int_char _ _ _ _ _ _ _
             ltac:(by intros c Hc; unfold int_char; rewrite Hc, !orb_true_r)
             ltac:(by intros c Hc; unfold int_char;
                   rewrite (bool_decide_eq_true_2 _ Hc), !orb_true_r)
             Hscan).
    apply (skip_spaces_forallb int_char);
      [by intros c Hc; unfold int_char; rewrite Hc|].
    by rewrite Hrest. }
  destruct Hsign as [->|(c & Hc & ->)]; [exact Hs2|].
  cbn [string_forallb]. rewrite Hs2. unfold int_char. rewrite Hc.
  by rewrite !orb_true_r.
Qed.

Lemma split_colon_1_joins raw :
  contains_colon raw = true →
  raw = ((split_colon_1 raw).1 ++ String ":"%char (split_colon_1 raw).2)%string.
Proof.
  induction raw as [|c raw IH]; [discriminate|].
  cbn [contains_colon split_colon_1].
  destruct (Ascii.eqb_spec c ":"%char) as [->|Hc]; [reflexivity|].
  cbn [orb]. intros Hraw. destruct (split_colon_1 raw) as [a b].
  cbn [fst snd] in *.
  change (String c a ++ String ":"%char b)%string
    with (String c (a ++ String ":"%char b)%string).
  by rewrite <- IH.
Qed.

(** X15. Of tokens of ASCII characters, whatever [_parse_order_lines] accepts
    is, token by token, one text, a colon and another text, the two texts
    made of nothing but digits, underscores, a sign and spaces: among such
    tokens, one with a letter, a decimal point or a second colon makes the
    parser raise. *)
Theorem parsed_tokens_alphabet raw_lines parsed :
  Forall ascii_text raw_lines →
  _parse_order_lines max_str_digits raw_lines = Ok parsed →
  Forall (λ raw,
            ∃ a b, raw = (a ++ String ":"%char b)%string
                   ∧ string_forallb int_char a = true
                   ∧ string_forallb int_char b = true)
    raw_lines.
Proof.
  intros _ Hparse. apply _parse_order_lines_Ok in Hparse as [_ Hall].
  induction Hall as [|raw l raws ls (Hcolon & Ha & Hb) _ IH]; constructor;
    [|exact IH].
  exists (split_colon_1 raw).1, (split_colon_1 raw).2.
  split; [by apply split_colon_1_joins|].
  split; eapply py_int_Ok_chars; eassumption.
Qed.

Lemma parse_tokens_first_bad good bad rest parsed :
  Forall2 (token_parses max_str_digits) good parsed →
  contains_colon bad = false →
  parse_tokens max_str_digits (good ++ bad :: rest)
  = Raise (InvalidOrderLine bad).
Proof.
  intros Hgood Hbad.
  induction Hgood as [|raw l raws ls (Hcolon & Ha & Hb) _ IH].
  - cbn [app parse_tokens]. by rewrite Hbad.
  - rewrite <- app_comm_cons. cbn [parse_tokens]. rewrite Hcolon. cbn [negb].
    destruct (split_colon_1 raw) as [a b]. cbn [fst snd] in Ha, Hb.
    by rewrite Ha, Hb, IH.
Qed.

(** X16. The parser stops at the first token it cannot take: when the tokens
    before it parse and it has no colon, the error raised is the one for that
    token, and it names the token, whatever comes after. *)
Theorem parse_order_lines_first_bad_token good bad rest parsed :
  Forall2 (token_parses max_str_digits) good parsed →
  contains_colon bad = false →
  _parse_order_lines max_str_digits (good ++ bad :: rest)
  = Raise (InvalidOrderLine bad).
Proof.
  intros Hgood Hbad. unfold _parse_order_lines.
  by rewrite (parse_tokens_first_bad _ _ _ _ Hgood Hbad).
Qed.

End Alphabet.

(** * Concrete runs, on [shop_A] with binary64 prices *)

(** The scenarios of the spec. Product 1 costs 10.00 and has stock 5: an order
    of three units leaves stock 2 and is reported with total 30.00. *)
Example scenario_first_order :
  (create_order 1 t0 [order_line 1 3] shop_A).1 = Ok 1
  ∧ product_stock <$> products shop_A_sold !! 1 = Some 2
  ∧ (list_orders float_times float_sum shop_A_sold).1
    = Ok [{| summary_id := 1; summary_created_at := t0;
             summary_customer_name := "Ann";
             summary_total := float_of_Z 30 |}].
Proof. vm_compute. done. Qed.

(** A second order of three units fails, two being left, and changes nothing. *)
Example scenario_second_order :
  create_order 1 t1 [order_line 1 3] shop_A_sold
  = (Raise (InsufficientStock 1 2), shop_A_sold).
Proof. vm_compute. reflexivity. Qed.

(** An order for a product that is not there leaves no order row behind. *)
Example scenario_missing_product :
  create_order 1 t1 [order_line 999 1] shop_A_sold
  = (Raise (ProductNotFound 999), shop_A_sold).
Proof. vm_compute. reflexivity. Qed.

(** Later orders come first in the report. *)
Example scenario_report_order :
  summary_id <$> sql_list_orders float_times float_sum shop_A_three_orders
  = [3; 2; 1].
Proof. vm_compute. reflexivity. Qed.

(** A price that is not-a-number is refused, and nothing is stored. *)
Example scenario_nan_price :
  add_product "x" (py_float_of_float PrimFloat.nan) (-1) shop_A
  = (Raise IntegrityError, shop_A).
Proof. vm_compute. reflexivity. Qed.


(** C1 at work: the second line for product 1 fails after the first one went
    through, and the database is [shop_A] again. *)
Lemma create_order_all_or_nothing_witness :
  ∃ e,
    create_order 1 t0 ([order_line 1 3] ++ order_line 1 3 :: []) shop_A
    = (Raise e, shop_A)
    ∧ (e = ProductNotFound 1
       ∨ ∃ available, e = InsufficientStock 1 available ∧ available < 3).
Proof.
  refine (create_order_all_or_nothing shop_A 1 t0 [order_line 1 3]
            (order_line 1 3) [] 1 _ _ _ _ _).
  - reflexivity.
  - reflexivity.
  - vm_compute. reflexivity.
Defined.

Lemma create_order_duplicate_product_witness :
  create_order 1 t0 [order_line 1 3; order_line 1 3] shop_A
  = (Raise (InsufficientStock 1 2), shop_A).
Proof.
  refine (create_order_duplicate_product shop_A 1 t0 1 3 3 []
            customer_Ann product_A _ _ _ _).
  - reflexivity.
  - reflexivity.
  - vm_compute. discriminate.
  - vm_compute. reflexivity.
Defined.

Lemma create_order_unknown_customer_witness :
  create_order 7 t0 [order_line 1 1] shop_A = (Raise IntegrityError, shop_A).
Proof.
  apply (create_order_unknown_customer shop_A 7 t0 [order_line 1 1]).
  reflexivity.
Defined.

(** C3 fails for [create_order] itself: with no line at all it returns order
    id 1 and stores order 1, which was not there, without any order item. *)
Lemma create_order_empty_lines_counterexample :
  (create_order 1 t0 [] shop_A).1 = Ok 1
  ∧ orders shop_A !! 1 = None
  ∧ orders (create_order 1 t0 [] shop_A).2 !! 1
    = Some {| order_customer_id := 1; order_created_at := t0 |}
  ∧ order_items (create_order 1 t0 [] shop_A).2 = [].
Proof. vm_compute. done. Qed.

Lemma create_order_empty_lines_witness :
  main_create_order default_max_str_digits 1 t0 [] shop_A
  = (Raise NoOrderLines, shop_A)
  ∧ ∃ d',
      create_order 1 t0 [] shop_A
      = (Ok (next_rowid (orders shop_A) (seq_orders shop_A)), d')
      ∧ orders shop_A !! next_rowid (orders shop_A) (seq_orders shop_A) = None
      ∧ orders d' =
          <[next_rowid (orders shop_A) (seq_orders shop_A) :=
              {| order_customer_id := 1; order_created_at := t0 |}]>
            (orders shop_A)
      ∧ order_items d' = order_items shop_A
      ∧ products d' = products shop_A
      ∧ customers d' = customers shop_A.
Proof.
  split.
  - apply (create_order_empty_lines shop_A default_max_str_digits 1 t0).
  - apply (proj2 (create_order_empty_lines shop_A default_max_str_digits 1 t0)
             customer_Ann).
    reflexivity.
Defined.



Lemma captured_price_is_kept_witness :
  (∃ new_items,
     order_items shop_A_sold = order_items shop_A ++ new_items
     ∧ Forall2 (captured shop_A 1) [order_line 1 3] new_items)
  ∧ (list_orders float_times float_sum
       (with_products (λ _, ∅) shop_A_sold)).1
    = (list_orders float_times float_sum shop_A_sold).1.
Proof.
  pose proof (captured_price_is_kept float_times float_sum 1 t0
                [order_line 1 3] shop_A 1 shop_A_sold eq_refl)
    as (Hitems & Hsame & Hwith & _).
  split; [exact Hitems|]. apply Hsame, Hwith.
Defined.

(** C6 fails on an order without items: the order is in the table and the
    report has no row for it. *)
Lemma list_orders_report_counterexample :
  orders (create_order 1 t0 [] shop_A).2 !! 1
  = Some {| order_customer_id := 1; order_created_at := t0 |}
  ∧ (list_orders float_times float_sum (create_order 1 t0 [] shop_A).2).1
    = Ok [].
Proof. vm_compute. done. Qed.

Lemma list_orders_report_witness :
  ∃ rows,
    list_orders float_times float_sum shop_A_three_orders
    = (Ok rows, shop_A_three_orders)
    ∧ summary_id <$> rows = [3; 2; 1]
    ∧ NoDup (summary_id <$> rows)
    ∧ StronglySorted created_desc rows.
Proof.
  destruct (list_orders_report float_times float_sum shop_A_three_orders)
    as (rows & Hrun & _ & Hnodup & Hsorted & _).
  exists rows. split; [exact Hrun|]. split; [|done].
  injection Hrun as <-. vm_compute. reflexivity.
Defined.

Lemma list_orders_omits_empty_order_witness :
  ∃ rows,
    list_orders float_times float_sum (create_order 1 t0 [] shop_A).2
    = (Ok rows, (create_order 1 t0 [] shop_A).2)
    ∧ 1 ∉ summary_id <$> rows.
Proof.
  apply (list_orders_omits_empty_order float_times float_sum
           (create_order 1 t0 [] shop_A).2 1
           {| order_customer_id := 1; order_created_at := t0 |}).
  - reflexivity.
  - reflexivity.
Defined.

(** C8 fails on a signed quantity: the token is not of the pattern, and the
    parser returns a line for it. *)
Lemma parse_order_lines_counterexample :
  spec_line_pattern "1:-5" = false
  ∧ _parse_order_lines default_max_str_digits ["1:-5"%string]
    = Ok [order_line 1 (-5)].
Proof. vm_compute. done. Qed.

Lemma parse_order_lines_accepts_witness :
  _parse_order_lines default_max_str_digits ["1:3"%string; "12:40"%string]
  = Ok [order_line 1 3; order_line 12 40].
Proof.
  apply (proj1 (proj2 (proj2
           (parse_order_lines_accepts default_max_str_digits
              (real := PrimFloat.float) ["1:3"%string; "12:40"%string]
              ltac:(repeat constructor))))).
  - discriminate.
  - repeat constructor.
Defined.



(** ** The catalog and the order transaction on [shop_A] *)

Lemma shop_A_fk_consistent : fk_consistent shop_A.
Proof.
  apply add_customer_fk_consistent, add_product_fk_consistent,
    fk_consistent_empty.
Qed.

Lemma shop_A_sold_fk_consistent : fk_consistent shop_A_sold.
Proof. apply create_order_fk_consistent, shop_A_fk_consistent. Qed.

Lemma update_product_stock_overwrites_witness :
  ∃ d',
    update_product_stock 1 7 shop_A = (Ok tt, d')
    ∧ product_stock <$> products d' !! 1 = Some 7
    ∧ update_product_stock 1 9 d' = update_product_stock 1 9 shop_A.
Proof.
  destruct (update_product_stock_overwrites 1 7 shop_A)
    as (d' & Hrun & Hstock & _ & _ & _ & Hlast).
  exists d'. split; [exact Hrun|]. split; [|apply Hlast].
  rewrite Hstock. reflexivity.
Defined.

Lemma delete_product_outcomes_witness :
  delete_product 9 shop_A = (Ok tt, shop_A)
  ∧ delete_product 1 shop_A_sold = (Raise IntegrityError, shop_A_sold)
  ∧ ∃ d',
      delete_product 1 shop_A = (Ok tt, d')
      ∧ products d' !! 1 = None
      ∧ (∀ k, k ≠ 1 → products d' !! k = products shop_A !! k)
      ∧ same_order_tables shop_A d'
      ∧ seq_products d' = seq_products shop_A.
Proof.
  split; [|split].
  - apply (proj1 (delete_product_outcomes 9 shop_A)). reflexivity.
  - apply (proj1 (proj2 (delete_product_outcomes 1 shop_A_sold))).
    + by exists (set_stock 2 product_A).
    + apply Exists_cons_hd. reflexivity.
  - apply (proj2 (proj2 (delete_product_outcomes 1 shop_A))).
    + by exists product_A.
    + constructor.
Defined.

Lemma foreign_keys_are_kept_witness :
  fk_consistent (create_order 1 t0 [order_line 1 3] shop_A).2
  ∧ fk_consistent (delete_product 1 shop_A_sold).2.
Proof.
  split.
  - pose proof (foreign_keys_are_kept shop_A shop_A_fk_consistent)
      as (_ & _ & _ & _ & Hcreate).
    exact (Hcreate 1 t0 [order_line 1 3]).
  - pose proof (foreign_keys_are_kept shop_A_sold shop_A_sold_fk_consistent)
      as (_ & _ & Hdelete & _).
    exact (Hdelete 1).
Defined.





Lemma main_create_order_on_pattern_tokens_witness :
  main_create_order default_max_str_digits 1 t0 ["1:3"%string] shop_A
  = create_order 1 t0 (line_of_token <$> ["1:3"%string]) shop_A.
Proof.
  apply (main_create_order_on_pattern_tokens default_max_str_digits 1 t0
           ["1:3"%string] shop_A).
  - discriminate.
  - repeat constructor.
Defined.

Lemma create_order_adds_one_report_row_witness :
  ∃ cust new_items,
    customers shop_A_sold !! 1 = Some cust
    ∧ Forall2 (captured shop_A_sold 2) [order_line 1 1] new_items
    ∧ ∀ s,
        s ∈ sql_list_orders float_times float_sum
              (create_order 1 t1 [order_line 1 1] shop_A_sold).2 ↔
        s ∈ sql_list_orders float_times float_sum shop_A_sold
        ∨ s = {| summary_id := 2; summary_created_at := t1;
                 summary_customer_name := customer_name cust;
                 summary_total :=
                   float_sum (line_amount float_times <$> new_items) |}.
Proof.
  apply (create_order_adds_one_report_row float_times float_sum 1 t1
           [order_line 1 1] shop_A_sold 2
           (create_order 1 t1 [order_line 1 1] shop_A_sold).2).
  - apply shop_A_sold_fk_consistent.
  - discriminate.
  - reflexivity.
Defined.

Lemma parsed_tokens_alphabet_witness :
  Forall (λ raw,
            ∃ a b, raw = (a ++ String ":"%char b)%string
                   ∧ string_forallb int_char a = true
                   ∧ string_forallb int_char b = true)
    ["1:-5"%string; " 2 : 1_0"%string].
Proof.
  apply (parsed_tokens_alphabet default_max_str_digits
           ["1:-5"%string; " 2 : 1_0"%string]
           [order_line 1 (-5); order_line 2 10]).
  - repeat constructor.
  - reflexivity.
Defined.

Lemma parse_order_lines_first_bad_token_witness :
  _parse_order_lines default_max_str_digits
    (["1:2"%string] ++ "12"%string :: ["x"%string])
  = Raise (InvalidOrderLine "12").
Proof.
  apply (parse_order_lines_first_bad_token default_max_str_digits
           ["1:2"%string] "12"%string ["x"%string] [order_line 1 2]).
  - repeat constructor.
  - reflexivity.
Defined.
